(** * yubiswitch: discovery and control of YubiKey HID interfaces

    A shallow embedding of [yubiswitch.py].  The program only talks to the
    operating system: it lists directories and reads attribute files below
    [/sys/bus/usb/devices/], looks for an entry below
    [/sys/bus/usb/drivers/usbhid], and writes an interface name to the
    [bind] and [unbind] control files of that driver.

    The embedding therefore has three layers:
    - [Py]: the Python values and library functions the program uses
      (exceptions, [str] methods, [os.path.join], [str.format]);
    - [OS]: the state of the machine as the program can observe and change
      it, and the system calls on it, as a state-and-exception monad [io];
    - the program itself: [is_active], [activate], [deactivate],
      [get_yubikeys], [rerun_as_root] and [main], translated line by line. *)

From Stdlib Require Import ZArith Ascii String.
From stdpp Require Import base strings list gmap pretty.

Open Scope string_scope.
Open Scope list_scope.
Open Scope Z_scope.

(** ** Python values *)

Module Py.

(** [errno] values the system calls of this program can fail with. *)
Inductive errno : Set :=
  | ENOENT | EACCES | EPERM | ENOTDIR | EISDIR | ENODEV | EIO | ELOOP.

(** Exceptions.  Since Python 3.3 [IOError] is [OSError], and the subclass
    of an [OSError] is determined by its errno: [FileNotFoundError] is
    [OSError ENOENT], [PermissionError] is [OSError EACCES] or
    [OSError EPERM].  [UnicodeDecodeError] (a [ValueError]) is what reading
    a text file raises on bytes that are not valid text. *)
Inductive exn : Set :=
  | OSError (e : errno)
  | UnicodeDecodeError
  | CalledProcessError (returncode : Z)
  | SystemExit (code : Z).

Definition FileNotFoundError : exn := OSError ENOENT.
Definition PermissionError : exn := OSError EACCES.

(** [isinstance(e, FileNotFoundError)] *)
Definition is_FileNotFoundError (e : exn) : bool :=
  match e with OSError ENOENT => true | _ => false end.

(** [isinstance(e, (OSError, IOError))] *)
Definition is_OSError (e : exn) : bool :=
  match e with OSError _ => true | _ => false end.

(** [isinstance(e, PermissionError)] *)
Definition is_PermissionError (e : exn) : bool :=
  match e with OSError EACCES | OSError EPERM => true | _ => false end.

(** The outcome of evaluating an expression: a value or a raised exception. *)
Inductive result (A : Type) : Type :=
  | Ok (a : A)
  | Raise (e : exn).
Global Arguments Ok {A} a.
Global Arguments Raise {A} e.

Global Instance errno_eq_dec : EqDecision errno.
Proof. solve_decision. Defined.
Global Instance exn_eq_dec : EqDecision exn.
Proof. solve_decision. Defined.
Global Instance result_eq_dec {A} `{EqDecision A} : EqDecision (result A).
Proof. solve_decision. Defined.

(** *** Strings

    A Python [str] is modelled by a [string] whose characters are the code
    points below 256. *)

Definition LF : string := String "010"%char EmptyString.
Definition CR : string := String "013"%char EmptyString.

(** What reading in text mode does to line endings (universal newlines):
    a carriage return followed by a line feed, and a carriage return
    alone, are read as one line feed. *)
Fixpoint universal_newlines (s : string) : string :=
  match s with
  | EmptyString => EmptyString
  | String c r =>
      if bool_decide (c = "013"%char)
      then String "010"
             match r with
             | String c' r' =>
                 if bool_decide (c' = "010"%char) then universal_newlines r'
                 else universal_newlines r
             | EmptyString => EmptyString
             end
      else String c (universal_newlines r)
  end.

(** [s.startswith('/')] *)
Definition startswith_sep (s : string) : bool :=
  match s with
  | String "/"%char _ => true
  | _ => false
  end.

(** [s.endswith('/')] *)
Fixpoint endswith_sep (s : string) : bool :=
  match s with
  | EmptyString => false
  | String c EmptyString => bool_decide (c = "/"%char)
  | String _ r => endswith_sep r
  end.

(** [posixpath.join(a, *p)]: an absolute component discards what precedes
    it; a separator is inserted unless the path so far is empty or already
    ends with one. *)
Fixpoint os_path_join (a : string) (p : list string) : string :=
  match p with
  | [] => a
  | b :: p' =>
      os_path_join
        (if startswith_sep b then b
         else if bool_decide (a = EmptyString) || endswith_sep a then a +:+ b
         else a +:+ "/" +:+ b)
        p'
  end.

(** [c.isspace()] for a code point below 256. *)
Definition isspace (c : ascii) : bool :=
  match c with
  | "009" | "010" | "011" | "012" | "013"
  | "028" | "029" | "030" | "031" | " " | "133" | "160" => true
  | _ => false
  end%char.

(** [s.lstrip()], [s.rstrip()], [s.strip()] *)
Fixpoint lstrip (s : string) : string :=
  match s with
  | String c r => if isspace c then lstrip r else s
  | EmptyString => EmptyString
  end.
Definition rstrip (s : string) : string := String.rev (lstrip (String.rev s)).
Definition strip (s : string) : string := rstrip (lstrip s).

(** [set(s).issubset(set(chars))] *)
Fixpoint str_in (c : ascii) (chars : string) : bool :=
  match chars with
  | EmptyString => false
  | String d r => bool_decide (c = d) || str_in c r
  end.
Fixpoint issubset (s chars : string) : bool :=
  match s with
  | EmptyString => true
  | String c r => str_in c chars && issubset r chars
  end.

(** [format(s, '<10')]: left-justify in a field of [width] characters. *)
Fixpoint spaces (n : nat) : string :=
  match n with O => EmptyString | S n' => String " " (spaces n') end.
Definition ljust (s : string) (width : nat) : string :=
  s +:+ spaces (width - String.length s).

(** [str(b)] for a [bool]. *)
Definition str_bool (b : bool) : string := if b then "True" else "False".

(** [str(n)] for an [int]. *)
Definition str_int (n : Z) : string := pretty n.

(** [repr(s)] for a [str]: single quotes unless the text has a single and
    no double quote; the quote, the backslash, tab, newline and carriage
    return are escaped, other non-printable code points are written
    [\xhh]. *)
Definition hexdigit (n : N) : ascii :=
  match n with
  | 0 => "0" | 1 => "1" | 2 => "2" | 3 => "3" | 4 => "4" | 5 => "5"
  | 6 => "6" | 7 => "7" | 8 => "8" | 9 => "9" | 10 => "a" | 11 => "b"
  | 12 => "c" | 13 => "d" | 14 => "e" | _ => "f"
  end%N%char.

Definition isprintable (c : ascii) : bool :=
  let n := N_of_ascii c in
  negb ((n <? 32) || ((127 <=? n) && (n <=? 160)) || (n =? 173))%N.

Definition backslash : ascii := "092"%char.
Definition dquote : ascii := "034"%char.

Definition repr_char (quote c : ascii) : string :=
  if bool_decide (c = quote) || bool_decide (c = backslash)
  then String backslash (String c EmptyString)
  else match c with
       | "009"%char => String backslash "t"
       | "010"%char => String backslash "n"
       | "013"%char => String backslash "r"
       | _ =>
           if isprintable c then String c EmptyString
           else let n := N_of_ascii c in
                String backslash
                  (String "x" (String (hexdigit (n / 16))
                                 (String (hexdigit (n mod 16)) EmptyString)))
       end.

Fixpoint repr_body (quote : ascii) (s : string) : string :=
  match s with
  | EmptyString => EmptyString
  | String c r => repr_char quote c +:+ repr_body quote r
  end.

Definition repr_str (s : string) : string :=
  let quote := if str_in "'" s && negb (str_in dquote s)
               then dquote else "'"%char in
  String quote (repr_body quote s) +:+ String quote EmptyString.

End Py.
Export Py.

(** ** The machine: sysfs, the usbhid driver and the process *)

Module OS.

(** A node of the file tree, as seen through symbolic links: a file
    whose bytes are the text [content] in the encoding of the process, a
    directory, or a file whose bytes are no text in that encoding. *)
Inductive node : Type :=
  | File (content : string)
  | Dir (listing : list string)
  | Binary.

(** What running a command as a subprocess comes to: the command cannot
    be started, or it runs and exits; it then leaves the file tree [tree]
    and has printed the lines [out]. *)
Inductive spawned : Type :=
  | CannotStart (e : errno)
  | Exited (status : Z) (tree : gmap string node) (out : list string).

(** The state of the machine.
    - [nodes]: the file tree: what a system call finds at a path, for the
      path as the program spells it (the kernel's own resolution of
      separators and links is part of the map); the listing of a directory
      is kept with it, in the order the kernel returns it;
    - [faults]: paths on which every system call fails, with its errno
      (a directory without search permission, a failing device);
    - [bus]: the names of the interfaces on the USB bus that the usbhid
      driver accepts;
    - [euid]: the effective user id of the process;
    - [argv]: [sys.argv];
    - [spawn]: what running a command as a subprocess comes to;
    - [written]: the writes to files this process completed so far, oldest
      first;
    - [stdout]: the lines printed so far, oldest first. *)
Record world : Type := World {
  nodes : gmap string node;
  faults : gmap string errno;
  bus : gset string;
  euid : Z;
  argv : list string;
  spawn : list string → spawned;
  written : list (string * string);
  stdout : list string;
}.

(** Computations with effects: a state monad over [world] with exceptions.
    A raised exception keeps the state reached when it was raised. *)
Definition io (A : Type) : Type := world → result A * world.

Definition ret {A} (a : A) : io A := λ w, (Ok a, w).
Definition raise {A} (e : exn) : io A := λ w, (Raise e, w).
Definition bind {A B} (m : io A) (k : A → io B) : io B := λ w,
  match m w with
  | (Ok a, w') => k a w'
  | (Raise e, w') => (Raise e, w')
  end.

(** [try: m  except ...: ...]: [handler e] is the body of the clause that
    catches [e], if there is one; an exception no clause catches goes on. *)
Definition try_except {A} (m : io A) (handler : exn → option (io A)) : io A :=
  λ w, match m w with
       | (Ok a, w') => (Ok a, w')
       | (Raise e, w') =>
           match handler e with
           | Some h => h w'
           | None => (Raise e, w')
           end
       end.

(** The clause [except <class>: h]. *)
Definition except {A} (isinstance : exn → bool) (h : io A) : exn → option (io A) :=
  λ e, if isinstance e then Some h else None.

(** [if c: m] *)
Definition when (c : bool) (m : io unit) : io unit := if c then m else ret tt.

Declare Scope io_scope.
Delimit Scope io_scope with io.
Bind Scope io_scope with io.
Notation "x <- m ;; k" := (bind m (λ x, k))
  (at level 100, m at next level, right associativity) : io_scope.
Notation "m ;; k" := (bind m (λ _, k))
  (at level 100, right associativity) : io_scope.
Local Open Scope io_scope.

(** [for x in xs: s = body(x, s)], with the variables the loop updates
    threaded as [s]; [continue] is the body returning early. *)
Fixpoint for_in {X S} (xs : list X) (body : X → S → io S) (s : S) : io S :=
  match xs with
  | [] => ret s
  | x :: xs' => s' <- body x s;; for_in xs' body s'
  end.

(** [print(line)] *)
Definition set_stdout (w : world) (out : list string) : world :=
  World (nodes w) (faults w) (bus w) (euid w) (argv w) (spawn w)
        (written w) out.
Definition print (line : string) : io unit := λ w,
  (Ok tt, set_stdout w (stdout w ++ [line])).

(** A system call that only inspects the machine. *)
Definition observe {A} (f : world → result A) : io A := λ w, (f w, w).

(** What a system call finds at [path]: a fault on the path fails the
    call, a missing node is [ENOENT]. *)
Definition lookup_node (w : world) (path : string) : result node :=
  match faults w !! path with
  | Some e => Raise (OSError e)
  | None =>
      match nodes w !! path with
      | Some n => Ok n
      | None => Raise (OSError ENOENT)
      end
  end.

(** [os.lstat(path)]: the program only uses the truth value of the
    [stat_result], and a [stat_result] is a non-empty sequence. *)
Record stat_result : Set := { st_isdir : bool }.
Definition bool_of_stat_result (_ : stat_result) : bool := true.

Definition lstat (w : world) (path : string) : result stat_result :=
  match lookup_node w path with
  | Ok (Dir _) => Ok {| st_isdir := true |}
  | Ok (File _) | Ok Binary => Ok {| st_isdir := false |}
  | Raise e => Raise e
  end.
Definition os_lstat (path : string) : io stat_result :=
  observe (λ w, lstat w path).

(** [os.listdir(path)] *)
Definition listdir (w : world) (path : string) : result (list string) :=
  match lookup_node w path with
  | Ok (Dir l) => Ok l
  | Ok (File _) | Ok Binary => Raise (OSError ENOTDIR)
  | Raise e => Raise e
  end.
Definition os_listdir (path : string) : io (list string) :=
  observe (λ w, listdir w path).

(** [os.path.isdir(path)]: false when [os.stat] fails. *)
Definition isdir (w : world) (path : string) : bool :=
  match lookup_node w path with
  | Ok (Dir _) => true
  | _ => false
  end.
Definition os_path_isdir (path : string) : io bool :=
  observe (λ w, Ok (isdir w path)).

(** [with open(path) as fd: fd.read()]: the file is read in text mode,
    so its bytes are decoded, which raises [UnicodeDecodeError] when they
    are no text, and the line endings of the text are translated. *)
Definition read (w : world) (path : string) : result string :=
  match lookup_node w path with
  | Ok (File s) => Ok (universal_newlines s)
  | Ok Binary => Raise UnicodeDecodeError
  | Ok (Dir _) => Raise (OSError EISDIR)
  | Raise e => Raise e
  end.
Definition read_file (path : string) : io string :=
  observe (λ w, read w path).

(** The directory of the usbhid driver and its control files. *)
Definition usbhid : string := "/sys/bus/usb/drivers/usbhid".
Definition usbhid_bind : string := "/sys/bus/usb/drivers/usbhid/bind".
Definition usbhid_unbind : string := "/sys/bus/usb/drivers/usbhid/unbind".

(** The entry of the driver's directory that stands for a bound interface. *)
Definition binding (name : string) : string := usbhid +:+ "/" +:+ name.

Definition set_nodes (w : world) (path data : string) (fs : gmap string node)
  : world :=
  World fs (faults w) (bus w) (euid w) (argv w) (spawn w)
        (written w ++ [(path, data)]) (stdout w).

(** The name of a device is a file name: not empty, no separator. *)
Definition is_filename (name : string) : bool :=
  negb (bool_decide (name = EmptyString)) && negb (str_in "/" name).

(** Adding a name to, and removing it from, the listing of a directory. *)
Definition add_entry (dir name : string) (fs : gmap string node)
  : gmap string node :=
  match fs !! dir with
  | Some (Dir l) => <[dir := Dir (l ++ [name])]> fs
  | _ => fs
  end.
Definition remove_entry (dir name : string) (fs : gmap string node)
  : gmap string node :=
  match fs !! dir with
  | Some (Dir l) => <[dir := Dir (filter (λ n, n ≠ name) l)]> fs
  | _ => fs
  end.

(** What the kernel does with a name written to [bind]: an interface of
    the bus that is not bound yet gets its entry in the driver's
    directory; anything else is [ENODEV]. *)
Definition driver_bind (name : string) : io unit := λ w,
  if is_filename name && bool_decide (name ∈ bus w) then
    match nodes w !! binding name with
    | None => (Ok tt, set_nodes w usbhid_bind name
                        (<[binding name := Dir []]>
                           (add_entry usbhid name (nodes w))))
    | Some _ => (Raise (OSError ENODEV), w)
    end
  else (Raise (OSError ENODEV), w).

(** And with a name written to [unbind]: the entry of a bound interface
    is removed; anything else is [ENODEV]. *)
Definition driver_unbind (name : string) : io unit := λ w,
  if is_filename name && bool_decide (name ∈ bus w) then
    match nodes w !! binding name with
    | Some (Dir _) => (Ok tt, set_nodes w usbhid_unbind name
                                (delete (binding name)
                                   (remove_entry usbhid name (nodes w))))
    | _ => (Raise (OSError ENODEV), w)
    end
  else (Raise (OSError ENODEV), w).

(** [with open(path, 'w') as fd: fd.write(data)].  The files of sysfs
    cannot be created and are writable by root only; the two control files
    hand the data to the driver, any other file keeps it. *)
Definition write_file (path data : string) : io unit := λ w,
  match lookup_node w path with
  | Raise e => (Raise e, w)
  | Ok (Dir _) => (Raise (OSError EISDIR), w)
  | Ok (File _) | Ok Binary =>
      if negb (euid w =? 0) then (Raise (OSError EACCES), w)
      else if bool_decide (path = usbhid_bind) then driver_bind data w
      else if bool_decide (path = usbhid_unbind) then driver_unbind data w
      else (Ok tt, set_nodes w path data (<[path := File data]> (nodes w)))
  end.

(** [os.geteuid()] *)
Definition os_geteuid : io Z := observe (λ w, Ok (euid w)).

(** [sys.argv] *)
Definition sys_argv : io (list string) := observe (λ w, Ok (argv w)).

(** [subprocess.check_call(cmd)]: raises the [OSError] of a command that
    cannot be started; otherwise the command runs, the machine is as the
    command leaves it, and the call returns 0 when the exit status is 0
    and raises [CalledProcessError] otherwise. *)
Definition after_spawn (w : world) (tree : gmap string node)
    (out : list string) : world :=
  World tree (faults w) (bus w) (euid w) (argv w) (spawn w) (written w)
        (stdout w ++ out).
Definition subprocess_check_call (cmd : list string) : io Z := λ w,
  match spawn w cmd with
  | CannotStart e => (Raise (OSError e), w)
  | Exited status tree out =>
      (if status =? 0 then Ok 0 else Raise (CalledProcessError status),
       after_spawn w tree out)
  end.

(** [sys.exit(code)] *)
Definition sys_exit {A} (code : Z) : io A := raise (SystemExit code).

End OS.
Export OS.
Open Scope io_scope.

(** ** The program *)

(** [class YubiKey], with [__init__] as its constructor. *)
Record YubiKey : Set := mkYubiKey { dev_id : string; product : string }.

Global Instance YubiKey_eq_dec : EqDecision YubiKey.
Proof. solve_decision. Defined.

(** [YubiKey.is_active] *)
Definition is_active (self : YubiKey) : io bool :=
  try_except
    (st <- os_lstat (os_path_join "/sys/bus/usb/drivers/usbhid" [dev_id self]);;
     ret (bool_of_stat_result st))
    (except is_FileNotFoundError (ret false)).

(** [YubiKey.activate] *)
Definition activate (self : YubiKey) : io bool :=
  active <- is_active self;;
  if active then ret false
  else
    write_file "/sys/bus/usb/drivers/usbhid/bind" (dev_id self);;
    ret true.

(** [YubiKey.deactivate] *)
Definition deactivate (self : YubiKey) : io bool :=
  active <- is_active self;;
  if negb active then ret false
  else
    write_file "/sys/bus/usb/drivers/usbhid/unbind" (dev_id self);;
    ret true.

(** [YubiKey.__repr__] *)
Definition YubiKey_repr (self : YubiKey) : string :=
  "<" +:+ "YubiKey" +:+ " (dev_id=" +:+ repr_str (dev_id self)
      +:+ ", product=" +:+ repr_str (product self) +:+ ")>".

Definition basepath : string := "/sys/bus/usb/devices/".

(** The body of the inner loop of [get_yubikeys], lines 77 to 81. *)
Definition subdev_body (dev_id product subdev : string)
    (yubikeys : list YubiKey) : io (list YubiKey) :=
  isdir <- os_path_isdir (os_path_join basepath [dev_id; subdev]);;
  if negb isdir then ret yubikeys
  else if negb (issubset subdev "0123456789-:.") then ret yubikeys
  else ret (yubikeys ++ [mkYubiKey subdev product]).

(** The body of the outer loop of [get_yubikeys], lines 59 to 81. *)
Definition device_body (debug : bool) (dev_id : string)
    (yubikeys : list YubiKey) : io (list YubiKey) :=
  let manufacturer_path := os_path_join basepath [dev_id; "manufacturer"] in
  when debug (print ("Opening manufacturer file " +:+ manufacturer_path));;
  read <- try_except
            (manufacturer <- read_file manufacturer_path;;
             ret (Some manufacturer))
            (except is_OSError (ret None));;
  match read with
  | None => ret yubikeys
  | Some manufacturer =>
      if bool_decide (manufacturer = "Yubico" +:+ LF) then
        when debug (print ("Found Yubico device at " +:+ manufacturer_path
                             +:+ ", scanning sub-devices"));;
        let product_path := os_path_join basepath [dev_id; "product"] in
        when debug (print ("Opening product file " +:+ product_path));;
        content <- read_file product_path;;
        let product := strip content in
        subdevs <- os_listdir (os_path_join basepath [dev_id]);;
        for_in subdevs (subdev_body dev_id product) yubikeys
      else ret yubikeys
  end.

(** [get_yubikeys] *)
Definition get_yubikeys (debug : bool) : io (list YubiKey) :=
  let yubikeys := [] in
  when debug (print ("Scanning " +:+ basepath));;
  entries <- os_listdir basepath;;
  for_in entries (device_body debug) yubikeys.

(** [rerun_as_root] *)
Definition rerun_as_root (argv : option (list string)) : io unit :=
  print "Root access required, re-running with sudo";;
  argv <- (match argv with None => sys_argv | Some a => ret a end
          : io (list string));;
  let cmd := "sudo" :: argv in
  try_except
    (status <- subprocess_check_call cmd;; sys_exit status)
    (λ exc, match exc with
            | CalledProcessError returncode => Some (sys_exit returncode)
            | _ => None
            end).

(** The arguments [argparse] accepts: one of three commands, and [-d]. *)
Inductive command : Set := cmd_on | cmd_off | cmd_list.
Record Namespace : Set := { args_command : command; args_debug : bool }.

(** [enumerate(xs, start)] *)
Fixpoint enumerate {A} (xs : list A) (start : Z) : list (Z * A) :=
  match xs with
  | [] => []
  | x :: xs' => (start, x) :: enumerate xs' (start + 1)
  end.

(** The bodies of the three loops of [main], lines 109 to 112, 115 to 118
    and 121 to 126. *)
Definition on_body (yubikey : YubiKey) (_ : unit) : io unit :=
  done <- activate yubikey;;
  if done
  then print ("Yubikey activated successfully: " +:+ YubiKey_repr yubikey)
  else print ("Yubikey already active: " +:+ YubiKey_repr yubikey).

Definition off_body (yubikey : YubiKey) (_ : unit) : io unit :=
  done <- deactivate yubikey;;
  if done
  then print ("Yubikey deactivated successfully: " +:+ YubiKey_repr yubikey)
  else print ("Yubikey already inactive: " +:+ YubiKey_repr yubikey).

Definition list_body (item : Z * YubiKey) (_ : unit) : io unit :=
  let idx := item.1 in
  let yubikey := item.2 in
  s <- is_active yubikey;;
  print (str_int idx +:+ ") " +:+ ljust (dev_id yubikey) 10 +:+ " "
           +:+ product yubikey +:+ " (active=" +:+ str_bool s +:+ ")").

(** [main], from the parsed arguments on. *)
Definition main (args : Namespace) : io unit :=
  not_root <- match args_command args with
              | cmd_on | cmd_off => euid <- os_geteuid;; ret (negb (euid =? 0))
              | cmd_list => ret false
              end;;
  when not_root (rerun_as_root None);;
  yubikeys <- get_yubikeys (args_debug args);;
  match args_command args with
  | cmd_on => for_in yubikeys on_body tt
  | cmd_off => for_in yubikeys off_body tt
  | cmd_list => for_in (enumerate yubikeys 1) list_body tt
  end.

(** ** Discovery as a function of the machine

    Discovery only inspects the machine, so what it returns is a function
    of the state; [device_body_run] and [get_yubikeys_run] below show that
    the loops of [get_yubikeys] compute these functions. *)

(** The paths [get_yubikeys] builds for the entry [d] of the device tree. *)
Definition manufacturer_path (d : string) : string :=
  os_path_join basepath [d; "manufacturer"].
Definition product_path (d : string) : string :=
  os_path_join basepath [d; "product"].
Definition device_path (d : string) : string := os_path_join basepath [d].

(** The list [yubikeys] after the iteration of the outer loop for [d]. *)
Definition device_result (w : world) (d : string) (yubikeys : list YubiKey)
  : result (list YubiKey) :=
  match read w (manufacturer_path d) with
  | Raise e => if is_OSError e then Ok yubikeys else Raise e
  | Ok manufacturer =>
      if bool_decide (manufacturer = "Yubico" +:+ LF) then
        match read w (product_path d) with
        | Raise e => Raise e
        | Ok content =>
            match listdir w (device_path d) with
            | Raise e => Raise e
            | Ok subdevs =>
                Ok (yubikeys ++
                    map (λ subdev, mkYubiKey subdev (strip content))
                      (List.filter
                         (λ subdev, isdir w (os_path_join basepath [d; subdev])
                                    && issubset subdev "0123456789-:.")
                         subdevs))
            end
        end
      else Ok yubikeys
  end.

(** The list [yubikeys] after the outer loop over [entries]. *)
Fixpoint scan_result (w : world) (entries : list string)
    (yubikeys : list YubiKey) : result (list YubiKey) :=
  match entries with
  | [] => Ok yubikeys
  | d :: entries' =>
      match device_result w d yubikeys with
      | Ok yubikeys' => scan_result w entries' yubikeys'
      | Raise e => Raise e
      end
  end.

(** ** A machine with one YubiKey

    The device tree has the single entry [1-2], a YubiKey 5 with the
    interface [1-2:1.0], which no driver is bound to. *)

Definition one_key_nodes : gmap string node :=
  list_to_map
    [ ("/sys/bus/usb/devices/", Dir ["1-2"]);
      ("/sys/bus/usb/devices/1-2", Dir ["manufacturer"; "product"; "1-2:1.0"]);
      ("/sys/bus/usb/devices/1-2/manufacturer", File ("Yubico" +:+ LF));
      ("/sys/bus/usb/devices/1-2/product", File "YubiKey 5");
      ("/sys/bus/usb/devices/1-2/1-2:1.0", Dir []);
      ("/sys/bus/usb/drivers/usbhid", Dir ["bind"; "unbind"]);
      ("/sys/bus/usb/drivers/usbhid/bind", File EmptyString);
      ("/sys/bus/usb/drivers/usbhid/unbind", File EmptyString) ].

Definition one_key (uid : Z) : world :=
  {| nodes := one_key_nodes;
     faults := ∅;
     bus := {["1-2:1.0"]};
     euid := uid;
     argv := ["yubiswitch.py"; "list"];
     spawn := λ _, Exited 1 one_key_nodes [];
     written := [];
     stdout := [] |}.

(** In [one_key], [sudo] refuses to run the command.  In [one_key_sudo]
    the user is not root and [sudo] runs the program as root: the command
    [on] then leaves the machine as [main] leaves it for root, and exits
    with status 0. *)


(** The machine with one YubiKey after root has bound the interface. *)

Definition one_key_bound : world :=
  (activate (mkYubiKey "1-2:1.0" "YubiKey 5") (one_key 0)).2.

(** The same key with a second interface, [1-2:1.1], a smart-card
    interface that the usbhid driver does not accept. *)

Definition two_interfaces : world :=
  {| nodes :=
       <["/sys/bus/usb/devices/1-2" :=
           Dir ["manufacturer"; "product"; "1-2:1.1"; "1-2:1.0"]]>
         (<["/sys/bus/usb/devices/1-2/1-2:1.1" := Dir []]> one_key_nodes);
     faults := ∅;
     bus := {["1-2:1.0"]};
     euid := 0;
     argv := ["yubiswitch.py"; "on"];
     spawn := λ _, CannotStart ENOENT;
     written := [];
     stdout := [] |}.

(** A machine with a second device, [1-1], whose attribute files the
    process may not read. *)

Definition unreadable_device : world :=
  {| nodes :=
       <["/sys/bus/usb/devices/" := Dir ["1-1"; "1-2"]]>
         (<["/sys/bus/usb/devices/1-1" := Dir ["manufacturer"; "product"]]>
            (<["/sys/bus/usb/devices/1-1/manufacturer" := File ("Yubico" +:+ LF)]>
               one_key_nodes));
     faults := {["/sys/bus/usb/devices/1-1/manufacturer" := EACCES]};
     bus := {["1-2:1.0"]};
     euid := 1000;
     argv := ["yubiswitch.py"; "list"];
     spawn := λ _, CannotStart ENOENT;
     written := [];
     stdout := [] |}.

(** The machine with one YubiKey whose manufacturer file holds bytes
    that are no text. *)

Definition binary_manufacturer : world :=
  {| nodes := <["/sys/bus/usb/devices/1-2/manufacturer" := Binary]> one_key_nodes;
     faults := ∅;
     bus := {["1-2:1.0"]};
     euid := 1000;
     argv := ["yubiswitch.py"; "list"];
     spawn := λ _, CannotStart ENOENT;
     written := [];
     stdout := [] |}.

(** The machine with one YubiKey whose product file fails to read. *)

Definition broken_product : world :=
  {| nodes := one_key_nodes;
     faults := {["/sys/bus/usb/devices/1-2/product" := EIO]};
     bus := {["1-2:1.0"]};
     euid := 1000;
     argv := ["yubiswitch.py"; "list"];
     spawn := λ _, CannotStart ENOENT;
     written := [];
     stdout := [] |}.

(** A machine without a YubiKey: a root hub, and a device that has no
    manufacturer file. *)

Definition no_key : world :=
  {| nodes :=
       list_to_map
         [ ("/sys/bus/usb/devices/", Dir ["usb1"; "1-3"]);
           ("/sys/bus/usb/devices/usb1",
            Dir ["manufacturer"; "product"; "1-0:1.0"]);
           ("/sys/bus/usb/devices/usb1/manufacturer",
            File ("Linux 6.1.0 xhci-hcd" +:+ LF));
           ("/sys/bus/usb/devices/usb1/product",
            File ("xHCI Host Controller" +:+ LF));
           ("/sys/bus/usb/devices/usb1/1-0:1.0", Dir []);
           ("/sys/bus/usb/devices/1-3", Dir ["product"]);
           ("/sys/bus/usb/devices/1-3/product", File ("USB Receiver" +:+ LF));
           ("/sys/bus/usb/drivers/usbhid", Dir ["bind"; "unbind"]);
           ("/sys/bus/usb/drivers/usbhid/bind", File EmptyString);
           ("/sys/bus/usb/drivers/usbhid/unbind", File EmptyString) ];
     faults := ∅;
     bus := ∅;
     euid := 0;
     argv := ["yubiswitch.py"; "on"];
     spawn := λ _, CannotStart ENOENT;
     written := [];
     stdout := [] |}.

(** The machine with one YubiKey, where the process may not list the
    root of the device tree. *)

Definition locked_root : world :=
  {| nodes := one_key_nodes;
     faults := {["/sys/bus/usb/devices/" := EACCES]};
     bus := {["1-2:1.0"]};
     euid := 1000;
     argv := ["yubiswitch.py"; "list"];
     spawn := λ _, CannotStart ENOENT;
     written := [];
     stdout := [] |}.

(** The machine with one YubiKey whose manufacturer file ends its line
    with a carriage return and a line feed. *)

Definition crlf_manufacturer : world :=
  {| nodes :=
       <["/sys/bus/usb/devices/1-2/manufacturer" := File ("Yubico" +:+ CR +:+ LF)]>
         one_key_nodes;
     faults := ∅;
     bus := {["1-2:1.0"]};
     euid := 1000;
     argv := ["yubiswitch.py"; "list"];
     spawn := λ _, CannotStart ENOENT;
     written := [];
     stdout := [] |}.

(** The machine with one YubiKey whose product file has blanks around
    the name, a carriage return inside it, and ends its line with a
    carriage return and a line feed. *)

Definition padded_product : world :=
  {| nodes :=
       <["/sys/bus/usb/devices/1-2/product" :=
           File ("  YubiKey" +:+ CR +:+ "5 " +:+ CR +:+ LF)]> one_key_nodes;
     faults := ∅;
     bus := {["1-2:1.0"]};
     euid := 1000;
     argv := ["yubiswitch.py"; "list"];
     spawn := λ _, CannotStart ENOENT;
     written := [];
     stdout := [] |}.

(** The machine with one YubiKey whose product file has a carriage
    return inside the name. *)

Definition cr_product : world :=
  {| nodes :=
       <["/sys/bus/usb/devices/1-2/product" := File ("Yubi" +:+ CR +:+ "Key")]>
         one_key_nodes;
     faults := ∅;
     bus := {["1-2:1.0"]};
     euid := 1000;
     argv := ["yubiswitch.py"; "list"];
     spawn := λ _, CannotStart ENOENT;
     written := [];
     stdout := [] |}.

(** * Properties *)

(** ** The monad and the observations *)

Lemma set_stdout_id (w : world) : set_stdout w (stdout w) = w.
Proof. by destruct w. Qed.

Lemma set_stdout_set (w : world) (out out' : list string) :
  set_stdout (set_stdout w out) out' = set_stdout w out'.
Proof. done. Qed.

Lemma bind_ok {A B} (m : io A) (k : A → io B) (w w' : world) (a : A) :
  m w = (Ok a, w') → bind m k w = k a w'.
Proof. unfold bind. by intros ->. Qed.

Lemma bind_raise {A B} (m : io A) (k : A → io B) (w w' : world) (e : exn) :
  m w = (Raise e, w') → bind m k w = (Raise e, w').
Proof. unfold bind. by intros ->. Qed.

Lemma for_in_app {X S} (xs ys : list X) (body : X → S → io S) (s s' : S)
    (w w' : world) :
  for_in xs body s w = (Ok s', w') →
  for_in (xs ++ ys) body s w = for_in ys body s' w'.
Proof.
  revert s w. induction xs as [|x xs IH]; intros s w; simpl.
  - unfold ret. by intros [= -> ->].
  - unfold bind. destruct (body x s w) as [[s1|e] w1]; [|done].
    apply IH.
Qed.

Lemma for_in_raise {X S} (xs ys : list X) (x : X) (body : X → S → io S)
    (s s' : S) (w w' w'' : world) (e : exn) :
  for_in xs body s w = (Ok s', w') →
  body x s' w' = (Raise e, w'') →
  for_in (xs ++ x :: ys) body s w = (Raise e, w'').
Proof.
  intros Hxs Hx. rewrite (for_in_app _ _ _ _ _ _ _ Hxs). simpl.
  by apply bind_raise.
Qed.

(** ** Strings *)

Lemma string_app_cons (c : ascii) (s t : string) :
  String c s +:+ t = String c (s +:+ t).
Proof. done. Qed.

Lemma string_app_assoc (s t u : string) : (s +:+ t) +:+ u = s +:+ t +:+ u.
Proof.
  induction s as [|c s IH]; [done|]. by rewrite !string_app_cons, IH.
Qed.

Lemma string_app_nil_r (s : string) : s +:+ EmptyString = s.
Proof. induction s as [|c s IH]; [done|]. by rewrite string_app_cons, IH. Qed.

Lemma string_length_app (s t : string) :
  String.length (s +:+ t) = (String.length s + String.length t)%nat.
Proof.
  induction s as [|c s IH]; [done|]. rewrite string_app_cons. cbn. by rewrite IH.
Qed.

Lemma rev_app_append (s t : string) :
  String.rev_app s t = String.rev s +:+ t.
Proof.
  unfold String.rev. revert t. induction s as [|c s IH]; intros t; [done|].
  cbn [String.rev_app]. rewrite (IH (String c t)), (IH (String c EmptyString)).
  by rewrite string_app_assoc.
Qed.

Lemma rev_cons (c : ascii) (s : string) :
  String.rev (String c s) = String.rev s +:+ String c EmptyString.
Proof. unfold String.rev at 1. cbn [String.rev_app]. apply rev_app_append. Qed.

Lemma rev_append (s t : string) :
  String.rev (s +:+ t) = String.rev t +:+ String.rev s.
Proof.
  induction s as [|c s IH].
  - by rewrite string_app_nil_r.
  - by rewrite string_app_cons, !rev_cons, IH, string_app_assoc.
Qed.

Lemma rev_involutive (s : string) : String.rev (String.rev s) = s.
Proof.
  induction s as [|c s IH]; [done|]. by rewrite rev_cons, rev_append, IH.
Qed.

Lemma lstrip_split (s : string) :
  ∃ a, s = a +:+ lstrip s ∧ lstrip a = EmptyString.
Proof.
  induction s as [|c s (a & Hs & Ha)]; [by exists EmptyString|].
  cbn [lstrip]. destruct (isspace c) eqn:Hc.
  - exists (String c a). rewrite string_app_cons, <- Hs. split; [done|].
    cbn [lstrip]. by rewrite Hc.
  - by exists EmptyString.
Qed.

Lemma lstrip_idem (s : string) : lstrip (lstrip s) = lstrip s.
Proof.
  induction s as [|c s IH]; [done|]. cbn [lstrip].
  destruct (isspace c) eqn:Hc; [done|]. cbn [lstrip]. by rewrite Hc.
Qed.

Lemma lstrip_space_iff (a : string) :
  lstrip a = EmptyString ↔ ∀ c, str_in c a = true → isspace c = true.
Proof.
  induction a as [|d a IH]; [done|]. cbn [lstrip str_in].
  destruct (isspace d) eqn:Hd.
  - rewrite IH. split.
    + intros H c [->%bool_decide_eq_true|Hc]%orb_true_iff; [done|by apply H].
    + intros H c Hc. apply H. by rewrite Hc, orb_true_r.
  - split; [done|]. intros H. rewrite (H d) in Hd; [done|].
    by rewrite bool_decide_eq_true_2.
Qed.

Lemma str_in_append (c : ascii) (s t : string) :
  str_in c (s +:+ t) = str_in c s || str_in c t.
Proof.
  induction s as [|d s IH]; [done|].
  rewrite string_app_cons. cbn [str_in]. by rewrite IH, orb_assoc.
Qed.

Lemma str_in_rev (c : ascii) (s : string) :
  str_in c (String.rev s) = str_in c s.
Proof.
  induction s as [|d s IH]; [done|].
  rewrite rev_cons, str_in_append, IH. cbn [str_in].
  by rewrite orb_false_r, orb_comm.
Qed.

Lemma lstrip_keeps_last (x : string) (c : ascii) :
  isspace c = false →
  ∃ y, lstrip (x +:+ String c EmptyString) = y +:+ String c EmptyString.
Proof.
  intros Hc. induction x as [|d x [y Hy]].
  - exists EmptyString.
    change (EmptyString +:+ String c EmptyString) with (String c EmptyString).
    cbn [lstrip]. by rewrite Hc.
  - rewrite string_app_cons. cbn [lstrip]. destruct (isspace d).
    + by exists y.
    + by exists (String d x).
Qed.

Lemma lstrip_rstrip_lstrip (s : string) :
  lstrip (rstrip (lstrip s)) = rstrip (lstrip s).
Proof.
  unfold rstrip. destruct (lstrip s) as [|c u] eqn:Hu; [done|].
  assert (isspace c = false) as Hc.
  { pose proof (lstrip_idem s) as H. rewrite Hu in H. cbn [lstrip] in H.
    destruct (isspace c) eqn:Hc; [|done].
    assert (String.length (lstrip u) ≤ String.length u)%nat as Hlen.
    { clear. induction u as [|d u IH]; [done|]. cbn [lstrip].
      destruct (isspace d); cbn [String.length]; lia. }
    rewrite H in Hlen. cbn [String.length] in Hlen. lia. }
  rewrite rev_cons.
  destruct (lstrip_keeps_last (String.rev u) c Hc) as [y ->].
  rewrite rev_append. cbn [String.rev String.rev_app].
  rewrite string_app_cons. cbn [lstrip]. by rewrite Hc.
Qed.

Lemma lstrip_head (s : string) (c : ascii) (r : string) :
  lstrip s = String c r → isspace c = false.
Proof.
  induction s as [|d s IH]; [done|]. cbn [lstrip].
  destruct (isspace d) eqn:Hd; [done|]. by intros [= <- _].
Qed.

(** What [strip] does to a text: it takes a run of whitespace away at
    each end, and what is left neither starts nor ends with whitespace. *)
Lemma strip_trimmed (s : string) :
  (∃ a b, s = a +:+ strip s +:+ b
          ∧ (∀ c, str_in c a = true → isspace c = true)
          ∧ (∀ c, str_in c b = true → isspace c = true))
  ∧ (∀ c r, strip s = String c r → isspace c = false)
  ∧ (∀ r c, strip s = r +:+ String c EmptyString → isspace c = false).
Proof.
  split; [|split].
  - destruct (lstrip_split s) as (a & Hs & Ha).
    destruct (lstrip_split (String.rev (lstrip s))) as (b & Hu & Hb).
    exists a, (String.rev b). split; [|split].
    + rewrite Hs at 1. f_equal. unfold strip, rstrip.
      rewrite <- rev_append, <- Hu. by rewrite rev_involutive.
    + by apply lstrip_space_iff.
    + intros c. rewrite str_in_rev. by apply lstrip_space_iff.
  - intros c r H. apply (lstrip_head (strip s) c r).
    unfold strip. by rewrite lstrip_rstrip_lstrip.
  - intros r c H. unfold strip, rstrip in H.
    apply (f_equal String.rev) in H. rewrite rev_involutive, rev_append in H.
    by apply lstrip_head in H.
Qed.

(** Reading a file gives a text exactly when the node is a text file:
    the text is its content with the line endings translated. *)
Lemma read_ok (w : world) (path text : string) :
  read w path = Ok text ↔
  ∃ content, lookup_node w path = Ok (File content)
             ∧ universal_newlines content = text.
Proof.
  unfold read. destruct (lookup_node w path) as [[c|l|]|e].
  - split; [intros [= <-]; by exists c|by intros (? & [= <-] & <-)].
  - split; [done|by intros (? & [=] & _)].
  - split; [done|by intros (? & [=] & _)].
  - split; [done|by intros (? & [=] & _)].
Qed.

(** ** Discovery *)

(** The handles the inner loop adds for a parent with the given listing. *)
Lemma for_in_subdevs (d prod : string) (subdevs : list string)
    (yubikeys : list YubiKey) (w : world) :
  for_in subdevs (subdev_body d prod) yubikeys w =
  (Ok (yubikeys ++
       map (λ subdev, mkYubiKey subdev prod)
         (List.filter
            (λ subdev, isdir w (os_path_join basepath [d; subdev])
                       && issubset subdev "0123456789-:.")
            subdevs)), w).
Proof.
  revert yubikeys. induction subdevs as [|s subdevs IH]; intros yubikeys.
  - simpl. by rewrite app_nil_r.
  - cbn [for_in List.filter]. unfold bind at 1, subdev_body at 1.
    unfold bind, os_path_isdir, observe, ret.
    destruct (isdir w _); cbn [negb andb].
    + destruct (issubset s _); cbn [negb].
      * rewrite IH. cbn [map]. by rewrite <- app_assoc.
      * apply IH.
    + apply IH.
Qed.

(** Reading the machine does not depend on what has been printed. *)
Ltac frame_stdout :=
  repeat match goal with
    | |- context [read (set_stdout ?w ?o) ?p] =>
        change (read (set_stdout w o) p) with (read w p)
    | |- context [listdir (set_stdout ?w ?o) ?p] =>
        change (listdir (set_stdout w o) p) with (listdir w p)
    | |- context [set_stdout (set_stdout ?w ?o) ?o'] =>
        change (set_stdout (set_stdout w o) o') with (set_stdout w o')
    | |- context [stdout (set_stdout ?w ?o)] =>
        change (stdout (set_stdout w o)) with o
    end.

Lemma set_stdout_nil (w : world) : set_stdout w (stdout w ++ []) = w.
Proof. by rewrite app_nil_r, set_stdout_id. Qed.

Lemma device_body_run (debug : bool) (d : string) (yubikeys : list YubiKey)
    (w : world) :
  ∃ out,
    device_body debug d yubikeys w =
      (device_result w d yubikeys, set_stdout w (stdout w ++ out))
    ∧ (debug = false → out = []).
Proof.
  unfold device_body, device_result, when, try_except, except, read_file,
    os_listdir, observe, print, ret, bind.
  fold (manufacturer_path d) (product_path d) (device_path d).
  destruct debug; frame_stdout;
    (destruct (read w (manufacturer_path d)) as [m|e];
     [ destruct (bool_decide (m = "Yubico" +:+ LF)); frame_stdout;
       [ destruct (read w (product_path d)) as [c|e];
         frame_stdout;
         [ destruct (listdir w (device_path d)) as [l|e];
           [ rewrite for_in_subdevs |] |] |]
     | destruct (is_OSError e) ]);
    frame_stdout; rewrite <- ?app_assoc;
    first [ eexists; split; [reflexivity | done]
          | exists []; split; [by rewrite set_stdout_nil | done] ].
Qed.

Lemma scan_result_stdout (w : world) (out : list string)
    (entries : list string) (yubikeys : list YubiKey) :
  scan_result (set_stdout w out) entries yubikeys
  = scan_result w entries yubikeys.
Proof.
  revert yubikeys. induction entries as [|d entries IH]; intros yubikeys.
  - done.
  - cbn [scan_result].
    change (device_result (set_stdout w out) d yubikeys)
      with (device_result w d yubikeys).
    destruct (device_result w d yubikeys); [apply IH | done].
Qed.

Lemma for_in_devices (debug : bool) (entries : list string)
    (yubikeys : list YubiKey) (w : world) :
  ∃ out,
    for_in entries (device_body debug) yubikeys w =
      (scan_result w entries yubikeys, set_stdout w (stdout w ++ out))
    ∧ (debug = false → out = []).
Proof.
  revert yubikeys w. induction entries as [|d entries IH]; intros yubikeys w.
  - exists []. by rewrite set_stdout_nil.
  - cbn [for_in scan_result]. unfold bind.
    destruct (device_body_run debug d yubikeys w) as (out1 & -> & Hout1).
    destruct (device_result w d yubikeys) as [yubikeys'|e].
    + destruct (IH yubikeys' (set_stdout w (stdout w ++ out1)))
        as (out2 & -> & Hout2).
      exists (out1 ++ out2). split.
      * frame_stdout. by rewrite scan_result_stdout, app_assoc.
      * intros Hd. by rewrite Hout1, Hout2.
    + by exists out1.
Qed.

Lemma get_yubikeys_run (debug : bool) (w : world) :
  ∃ out,
    get_yubikeys debug w =
      (match listdir w basepath with
       | Ok entries => scan_result w entries []
       | Raise e => Raise e
       end, set_stdout w (stdout w ++ out))
    ∧ (debug = false → out = []).
Proof.
  unfold get_yubikeys, when, os_listdir, observe, print, ret, bind.
  destruct debug; frame_stdout.
  - destruct (listdir w basepath) as [entries|e].
    + destruct (for_in_devices true entries []
                  (set_stdout w (stdout w ++ ["Scanning " +:+ basepath])))
        as (out & -> & _).
      eexists. split; [|intros [=]]. frame_stdout.
      by rewrite scan_result_stdout, <- app_assoc.
    + eexists. by split.
  - destruct (listdir w basepath) as [entries|e].
    + apply for_in_devices.
    + exists []. by rewrite set_stdout_nil.
Qed.

Lemma get_yubikeys_result (debug : bool) (w : world) (entries : list string) :
  listdir w basepath = Ok entries →
  (get_yubikeys debug w).1 = scan_result w entries [].
Proof.
  intros H. destruct (get_yubikeys_run debug w) as (out & -> & _).
  by rewrite H.
Qed.

Lemma for_in_devices_result (debug : bool) (entries : list string)
    (yubikeys : list YubiKey) (w : world) :
  (for_in entries (device_body debug) yubikeys w).1
  = scan_result w entries yubikeys.
Proof. by destruct (for_in_devices debug entries yubikeys w) as (out & -> & _). Qed.

Lemma scan_result_app (w : world) (pre post : list string)
    (yubikeys : list YubiKey) :
  scan_result w (pre ++ post) yubikeys =
  match scan_result w pre yubikeys with
  | Ok yubikeys' => scan_result w post yubikeys'
  | Raise e => Raise e
  end.
Proof.
  revert yubikeys. induction pre as [|d pre IH]; intros yubikeys; [done|].
  cbn [app scan_result]. destruct (device_result w d yubikeys); [apply IH|done].
Qed.

(** An entry whose manufacturer file cannot be opened, or reads something
    else than the vendor's name, leaves the list as it is. *)
Lemma device_result_skip (w : world) (d : string) (yubikeys ys : list YubiKey) :
  read w (manufacturer_path d) ≠ Ok ("Yubico" +:+ LF) →
  device_result w d yubikeys = Ok ys → ys = yubikeys.
Proof.
  unfold device_result. intros Hm.
  destruct (read w (manufacturer_path d)) as [m|e].
  - case_bool_decide; [congruence|]. by intros [= <-].
  - destruct (is_OSError e); [by intros [= <-] | done].
Qed.

(** A handle that an entry adds comes from the listing of that entry,
    which then has the vendor's name in its manufacturer file. *)
Lemma device_result_elem (w : world) (d : string) (yubikeys ys : list YubiKey)
    (y : YubiKey) :
  device_result w d yubikeys = Ok ys → y ∈ ys →
  y ∈ yubikeys ∨
  (read w (manufacturer_path d) = Ok ("Yubico" +:+ LF)
   ∧ ∃ subdevs, listdir w (device_path d) = Ok subdevs ∧ dev_id y ∈ subdevs).
Proof.
  unfold device_result.
  destruct (read w (manufacturer_path d)) as [m|e].
  - case_bool_decide as Hm; [|intros [= <-]; by left].
    destruct (read w (product_path d)) as [c|?]; [|done].
    destruct (listdir w (device_path d)) as [l|?]; [|done].
    intros [= <-] [Hy|Hy]%elem_of_app; [by left|right].
    split; [by rewrite Hm|]. exists l. split; [done|].
    apply list_elem_of_fmap in Hy as (s & -> & Hs).
    apply list_elem_of_In, filter_In in Hs as [Hs _].
    by apply list_elem_of_In.
  - destruct (is_OSError e); [intros [= <-]; by left | done].
Qed.

Lemma scan_result_elem (w : world) (entries : list string)
    (yubikeys ys : list YubiKey) (y : YubiKey) :
  scan_result w entries yubikeys = Ok ys → y ∈ ys →
  y ∈ yubikeys ∨
  ∃ d, d ∈ entries ∧ read w (manufacturer_path d) = Ok ("Yubico" +:+ LF)
       ∧ ∃ subdevs, listdir w (device_path d) = Ok subdevs ∧ dev_id y ∈ subdevs.
Proof.
  revert yubikeys. induction entries as [|d entries IH]; intros yubikeys.
  - intros [= <-]. by left.
  - cbn [scan_result].
    destruct (device_result w d yubikeys) as [ys'|] eqn:Hd; [|done].
    intros Hs Hy. destruct (IH _ Hs Hy) as [Hy'|(d' & Hd' & H)].
    + destruct (device_result_elem _ _ _ _ _ Hd Hy') as [?|[Hm Hl]];
        [by left|right].
      exists d. split; [left|done].
    + right. exists d'. split; [by right|done].
Qed.

Lemma scan_result_filter (w : world) (entries : list string)
    (yubikeys ys : list YubiKey) :
  scan_result w entries yubikeys = Ok ys →
  scan_result w
    (List.filter
       (λ d, bool_decide (read w (manufacturer_path d) = Ok ("Yubico" +:+ LF)))
       entries) yubikeys = Ok ys.
Proof.
  revert yubikeys. induction entries as [|d entries IH]; intros yubikeys; [done|].
  cbn [scan_result List.filter].
  destruct (device_result w d yubikeys) as [ys'|] eqn:Hd; [|done].
  intros Hs. case_bool_decide as Hm.
  - cbn [scan_result]. rewrite Hd. by apply IH.
  - apply (device_result_skip _ _ _ _ Hm) in Hd as ->. by apply IH.
Qed.

(** C2, as the code has it: the handles [get_yubikeys] returns come only
    from the entries of the device tree whose manufacturer file exists
    and, read as text with the line endings translated to a line feed,
    reads exactly the vendor's name followed by a newline; every other
    entry contributes nothing: the scan of the matching entries alone
    returns the same list. *)
Theorem C2_only_yubico_entries (w : world) (debug : bool)
    (entries : list string) (yubikeys : list YubiKey) :
  listdir w basepath = Ok entries →
  (get_yubikeys debug w).1 = Ok yubikeys →
  (for_in
     (List.filter
        (λ d, bool_decide (read w (manufacturer_path d) = Ok ("Yubico" +:+ LF)))
        entries)
     (device_body debug) [] w).1 = Ok yubikeys
  ∧ (∀ d, read w (manufacturer_path d) = Ok ("Yubico" +:+ LF) ↔
          ∃ content, lookup_node w (manufacturer_path d) = Ok (File content)
                     ∧ universal_newlines content = "Yubico" +:+ LF)
  ∧ ∀ y, y ∈ yubikeys →
      ∃ d content,
        d ∈ entries
        ∧ lookup_node w (manufacturer_path d) = Ok (File content)
        ∧ universal_newlines content = "Yubico" +:+ LF
        ∧ ∃ subdevs, listdir w (device_path d) = Ok subdevs
                     ∧ dev_id y ∈ subdevs.
Proof.
  intros Hl. rewrite (get_yubikeys_result _ _ _ Hl). intros Hs.
  split; [|split].
  - rewrite for_in_devices_result. by apply scan_result_filter.
  - intros d. apply read_ok.
  - intros y Hy.
    destruct (scan_result_elem _ _ _ _ _ Hs Hy) as [H|(d & Hd & Hm & Hsub)];
      [by apply elem_of_nil in H|].
    apply read_ok in Hm as (content & Hnode & Htext). by exists d, content.
Qed.

Lemma C2_only_yubico_entries_witness :
  (for_in
     (List.filter
        (λ d, bool_decide (read unreadable_device (manufacturer_path d)
                           = Ok ("Yubico" +:+ LF)))
        ["1-1"; "1-2"])
     (device_body true) [] unreadable_device).1
  = Ok [mkYubiKey "1-2:1.0" "YubiKey 5"]
  ∧ (∀ d, read unreadable_device (manufacturer_path d) = Ok ("Yubico" +:+ LF) ↔
          ∃ content,
            lookup_node unreadable_device (manufacturer_path d) = Ok (File content)
            ∧ universal_newlines content = "Yubico" +:+ LF)
  ∧ ∀ y, y ∈ [mkYubiKey "1-2:1.0" "YubiKey 5"] →
      ∃ d content,
        d ∈ ["1-1"; "1-2"]
        ∧ lookup_node unreadable_device (manufacturer_path d) = Ok (File content)
        ∧ universal_newlines content = "Yubico" +:+ LF
        ∧ ∃ subdevs, listdir unreadable_device (device_path d) = Ok subdevs
                     ∧ dev_id y ∈ subdevs.
Proof.
  apply (C2_only_yubico_entries unreadable_device true ["1-1"; "1-2"]
           [mkYubiKey "1-2:1.0" "YubiKey 5"]); reflexivity.
Defined.

(** C2, as the specification states it, fails: the manufacturer file of
    [1-2] holds the vendor's name followed by a carriage return and a line
    feed, which is not the vendor's name followed by a single newline, and
    discovery returns the handle of its interface all the same. *)
Lemma C2_counterexample :
  lookup_node crlf_manufacturer (manufacturer_path "1-2")
  = Ok (File ("Yubico" +:+ CR +:+ LF))
  ∧ "Yubico" +:+ CR +:+ LF ≠ "Yubico" +:+ LF
  ∧ (get_yubikeys false crlf_manufacturer).1
    = Ok [mkYubiKey "1-2:1.0" "YubiKey 5"].
Proof. split; [reflexivity|]. split; [discriminate|reflexivity]. Qed.

(** C3, as the code has it: for a matching parent, [get_yubikeys] appends
    to the handles of the entries before it one handle per sub-entry that
    is a directory and whose name has only characters of [0123456789-:.],
    in the order of the listing, with the name of the sub-entry as
    [dev_id]; the other sub-entries add nothing, and the scan goes on with
    the entries that follow.  The [product] of these handles is the
    content of the parent's product file, read as text with the line
    endings translated to a line feed, without the whitespace around it:
    the text is the product between two runs of whitespace characters,
    and the product neither starts nor ends with one. *)
Theorem C3_handles_of_parent (w : world) (debug : bool)
    (pre post : list string) (d content : string) (subdevs : list string)
    (yubikeys : list YubiKey) :
  listdir w basepath = Ok (pre ++ d :: post) →
  (for_in pre (device_body debug) [] w).1 = Ok yubikeys →
  read w (manufacturer_path d) = Ok ("Yubico" +:+ LF) →
  lookup_node w (product_path d) = Ok (File content) →
  listdir w (device_path d) = Ok subdevs →
  let display := strip (universal_newlines content) in
  (∃ a b, universal_newlines content = a +:+ display +:+ b
          ∧ (∀ c, str_in c a = true → isspace c = true)
          ∧ (∀ c, str_in c b = true → isspace c = true))
  ∧ (∀ c r, display = String c r → isspace c = false)
  ∧ (∀ r c, display = r +:+ String c EmptyString → isspace c = false)
  ∧ (get_yubikeys debug w).1 =
    (for_in post (device_body debug)
       (yubikeys ++
        map (λ subdev, mkYubiKey subdev display)
          (List.filter
             (λ subdev, isdir w (os_path_join basepath [d; subdev])
                        && issubset subdev "0123456789-:.")
             subdevs)) w).1.
Proof.
  intros Hl Hpre Hm Hp Hs display.
  destruct (strip_trimmed (universal_newlines content)) as (Hsplit & Hhead & Hlast).
  split; [done|]. split; [done|]. split; [done|].
  assert (read w (product_path d) = Ok (universal_newlines content)) as Hread.
  { apply read_ok. by exists content. }
  rewrite (get_yubikeys_result _ _ _ Hl), !for_in_devices_result.
  rewrite for_in_devices_result in Hpre.
  rewrite scan_result_app, Hpre. cbn [scan_result].
  unfold device_result. rewrite Hm, Hread, Hs. by rewrite bool_decide_eq_true_2.
Qed.

Lemma C3_handles_of_parent_witness :
  (get_yubikeys false padded_product).1
  = Ok [mkYubiKey "1-2:1.0" ("YubiKey" +:+ LF +:+ "5")].
Proof.
  destruct (C3_handles_of_parent padded_product false [] [] "1-2"
              ("  YubiKey" +:+ CR +:+ "5 " +:+ CR +:+ LF)
              ["manufacturer"; "product"; "1-2:1.0"] [])
    as (_ & _ & _ & H); [reflexivity..|].
  rewrite H. reflexivity.
Defined.

(** C3, as the specification states it, fails: the product file of [1-2]
    has a carriage return inside the name and no whitespace around it, so
    that trimming its content changes nothing, but the product of the
    handle has a line feed in the place of the carriage return. *)
Lemma C3_counterexample :
  lookup_node cr_product (product_path "1-2")
  = Ok (File ("Yubi" +:+ CR +:+ "Key"))
  ∧ strip ("Yubi" +:+ CR +:+ "Key") = "Yubi" +:+ CR +:+ "Key"
  ∧ (get_yubikeys false cr_product).1
    = Ok [mkYubiKey "1-2:1.0" ("Yubi" +:+ LF +:+ "Key")]
  ∧ "Yubi" +:+ LF +:+ "Key" ≠ "Yubi" +:+ CR +:+ "Key".
Proof.
  split; [reflexivity|]. split; [reflexivity|]. split; [reflexivity|discriminate].
Qed.

(** C5, as the code has it: a manufacturer file whose reading raises a
    permission error is skipped like a missing one; the scan goes on and
    returns what it returns without the entry. *)
Theorem C5_permission_error_skipped (w : world) (debug : bool)
    (pre post : list string) (d : string) (e : exn) :
  listdir w basepath = Ok (pre ++ d :: post) →
  read w (manufacturer_path d) = Raise e →
  is_PermissionError e = true →
  (get_yubikeys debug w).1 = (for_in (pre ++ post) (device_body debug) [] w).1.
Proof.
  intros Hl Hm He.
  rewrite (get_yubikeys_result _ _ _ Hl), for_in_devices_result.
  rewrite !scan_result_app.
  destruct (scan_result w pre []) as [ys|]; [|done].
  cbn [scan_result]. unfold device_result. rewrite Hm.
  by destruct e as [[]| | |].
Qed.

Lemma C5_permission_error_skipped_witness :
  (get_yubikeys false unreadable_device).1
  = (for_in ([] ++ ["1-2"]) (device_body false) [] unreadable_device).1.
Proof.
  apply (C5_permission_error_skipped unreadable_device false [] ["1-2"] "1-1"
           PermissionError); reflexivity.
Defined.

(** C5, as the specification states it, fails: the manufacturer file of [1-1]
    raises a permission error, and discovery returns the handle of the
    other device instead of raising. *)
Lemma C5_counterexample :
  read unreadable_device (manufacturer_path "1-1") = Raise PermissionError
  ∧ (get_yubikeys false unreadable_device).1
    = Ok [mkYubiKey "1-2:1.0" "YubiKey 5"]
  ∧ ¬ ∃ e, (get_yubikeys false unreadable_device).1 = Raise e.
Proof.
  split; [reflexivity|]. split; [reflexivity|]. by intros [e [=]].
Qed.

(** C7: when the product file of a matching parent cannot be read, or its
    directory cannot be listed, [get_yubikeys] ends with an exception and
    returns no list; when the entries before it were scanned without an
    exception, it is the exception of that failure. *)
Theorem C7_product_or_listing_failure (w : world) (debug : bool)
    (pre post : list string) (d : string) (e : exn) :
  listdir w basepath = Ok (pre ++ d :: post) →
  read w (manufacturer_path d) = Ok ("Yubico" +:+ LF) →
  read w (product_path d) = Raise e
  ∨ ((∃ content, read w (product_path d) = Ok content)
     ∧ listdir w (device_path d) = Raise e) →
  (∃ e', (get_yubikeys debug w).1 = Raise e')
  ∧ (∀ yubikeys,
       (for_in pre (device_body debug) [] w).1 = Ok yubikeys →
       (get_yubikeys debug w).1 = Raise e).
Proof.
  intros Hl Hm Hfail.
  rewrite (get_yubikeys_result _ _ _ Hl), scan_result_app.
  assert (∀ ys, device_result w d ys = Raise e) as Hd.
  { intros ys. unfold device_result. rewrite Hm, bool_decide_eq_true_2 by done.
    destruct Hfail as [-> | [[c ->] ->]]; done. }
  split.
  - destruct (scan_result w pre []) as [ys|e']; [|by exists e'].
    exists e. cbn [scan_result]. by rewrite Hd.
  - intros ys. rewrite for_in_devices_result. intros ->.
    cbn [scan_result]. by rewrite Hd.
Qed.

Lemma C7_product_or_listing_failure_witness :
  (∃ e', (get_yubikeys true broken_product).1 = Raise e')
  ∧ (∀ yubikeys,
       (for_in [] (device_body true) [] broken_product).1 = Ok yubikeys →
       (get_yubikeys true broken_product).1 = Raise (OSError EIO)).
Proof.
  apply (C7_product_or_listing_failure broken_product true [] [] "1-2"
           (OSError EIO)); [reflexivity | reflexivity | left; reflexivity].
Defined.

(** C10: [get_yubikeys] returns the same handles, or raises the same
    exception, with and without the debug flag; with the flag it only
    appends lines to the output, without it the machine is left as it
    was. *)
Theorem C10_debug_only_prints (w : world) :
  (get_yubikeys true w).1 = (get_yubikeys false w).1
  ∧ (∃ out, (get_yubikeys true w).2 = set_stdout w (stdout w ++ out))
  ∧ (get_yubikeys false w).2 = w.
Proof.
  destruct (get_yubikeys_run true w) as (out & -> & _).
  destruct (get_yubikeys_run false w) as (out' & -> & Hout).
  rewrite (Hout eq_refl), set_stdout_nil. split; [done|]. split; [|done].
  by exists out.
Qed.

(** ** Control *)

Lemma is_active_run (self : YubiKey) (w : world) :
  is_active self w =
  (match lookup_node w (os_path_join usbhid [dev_id self]) with
   | Ok _ => Ok true
   | Raise e => if is_FileNotFoundError e then Ok false else Raise e
   end, w).
Proof.
  unfold is_active, try_except, except, os_lstat, observe, bind, ret, lstat.
  fold usbhid.
  destruct (lookup_node w (os_path_join usbhid [dev_id self])) as [[c|l|]|e];
    [done..|].
  by destruct (is_FileNotFoundError e).
Qed.

Lemma startswith_sep_str_in (s : string) :
  str_in "/" s = false → startswith_sep s = false.
Proof.
  destruct s as [|c s]; [done|]. cbn [str_in]. intros [H _]%orb_false_elim.
  apply bool_decide_eq_false in H.
  by destruct c as [[] [] [] [] [] [] [] []].
Qed.

Lemma join_binding (name : string) :
  startswith_sep name = false → os_path_join usbhid [name] = binding name.
Proof. intros H. cbn [os_path_join]. by rewrite H. Qed.

Lemma is_filename_binding (name : string) :
  is_filename name = true → os_path_join usbhid [name] = binding name.
Proof.
  intros [_ H%negb_true_iff]%andb_true_iff.
  by apply join_binding, startswith_sep_str_in.
Qed.

Lemma write_file_written (path data : string) (w : world) :
  written (write_file path data w).2 =
  written w ++ match (write_file path data w).1 with
               | Ok _ => [(path, data)]
               | Raise _ => []
               end.
Proof.
  unfold write_file, driver_bind, driver_unbind.
  destruct (lookup_node w path) as [[c|l|]|e]; cbn [fst snd];
    try (by rewrite app_nil_r);
    (destruct (euid w =? 0); cbn [negb fst snd]; [|by rewrite app_nil_r];
     repeat case_bool_decide; subst; repeat case_match;
     cbn [fst snd written set_nodes]; by rewrite ?app_nil_r).
Qed.

Lemma write_file_raise (path data : string) (w w' : world) (e : exn) :
  write_file path data w = (Raise e, w') → w' = w.
Proof.
  unfold write_file, driver_bind, driver_unbind. intros H.
  repeat case_match; by simplify_eq.
Qed.

Lemma activate_run (self : YubiKey) (w : world) :
  activate self w =
  match (is_active self w).1 with
  | Ok true => (Ok false, w)
  | Ok false =>
      (match (write_file usbhid_bind (dev_id self) w).1 with
       | Ok _ => Ok true
       | Raise e => Raise e
       end, (write_file usbhid_bind (dev_id self) w).2)
  | Raise e => (Raise e, w)
  end.
Proof.
  unfold activate, bind. rewrite is_active_run. cbn [fst].
  fold usbhid_bind.
  destruct (lookup_node w _) as [n|e]; [done|].
  destruct (is_FileNotFoundError e); [|done].
  by destruct (write_file usbhid_bind (dev_id self) w) as [[[]|?] ?].
Qed.

Lemma deactivate_run (self : YubiKey) (w : world) :
  deactivate self w =
  match (is_active self w).1 with
  | Ok false => (Ok false, w)
  | Ok true =>
      (match (write_file usbhid_unbind (dev_id self) w).1 with
       | Ok _ => Ok true
       | Raise e => Raise e
       end, (write_file usbhid_unbind (dev_id self) w).2)
  | Raise e => (Raise e, w)
  end.
Proof.
  unfold deactivate, bind. rewrite is_active_run. cbn [fst].
  fold usbhid_unbind.
  destruct (lookup_node w _) as [n|e].
  - cbn [negb]. by destruct (write_file usbhid_unbind (dev_id self) w) as [[[]|?] ?].
  - by destruct (is_FileNotFoundError e).
Qed.

(** A call that raises leaves the machine as it was. *)
Lemma activate_raise (self : YubiKey) (w w' : world) (e : exn) :
  activate self w = (Raise e, w') → w' = w.
Proof.
  rewrite activate_run. destruct (is_active self w).1 as [[]|?];
    [by intros [= _ <-]| |by intros [= _ <-]].
  destruct (write_file usbhid_bind (dev_id self) w) as [[[]|e'] w1] eqn:Hw;
    cbn [fst snd]; [done|].
  intros [= _ <-]. by apply write_file_raise in Hw.
Qed.

Lemma deactivate_raise (self : YubiKey) (w w' : world) (e : exn) :
  deactivate self w = (Raise e, w') → w' = w.
Proof.
  rewrite deactivate_run. destruct (is_active self w).1 as [[]|?];
    [|by intros [= _ <-]..].
  destruct (write_file usbhid_unbind (dev_id self) w) as [[[]|e'] w1] eqn:Hw;
    cbn [fst snd]; [done|].
  intros [= _ <-]. by apply write_file_raise in Hw.
Qed.

(** C4: [is_active] is true exactly when the driver's directory has an
    entry for the identifier; a missing entry, or a call that fails with
    [ENOENT], gives false; a call that fails with another errno raises
    the [OSError] of that errno.  For an identifier that is not an
    absolute path, the entry is [usbhid/<identifier>]. *)
Theorem C4_is_active (self : YubiKey) (w : world) :
  let path := os_path_join usbhid [dev_id self] in
  (startswith_sep (dev_id self) = false → path = binding (dev_id self))
  ∧ (faults w !! path = None →
     (is_active self w = (Ok true, w) ↔ is_Some (nodes w !! path)))
  ∧ (faults w !! path = None → nodes w !! path = None →
     is_active self w = (Ok false, w))
  ∧ (faults w !! path = Some ENOENT → is_active self w = (Ok false, w))
  ∧ (∀ e, faults w !! path = Some e → e ≠ ENOENT →
          is_active self w = (Raise (OSError e), w)).
Proof.
  intros path. rewrite is_active_run. fold path. unfold lookup_node.
  split; [apply join_binding|].
  split; [|split; [|split]].
  - intros ->. destruct (nodes w !! path) as [n|]; cbn.
    + split; [by eexists|done].
    + split; [done|by intros [? [=]]].
  - by intros -> ->.
  - by intros ->.
  - intros e -> He. by destruct e.
Qed.

Lemma C4_is_active_witness :
  is_active (mkYubiKey "1-2:1.0" "YubiKey 5") (one_key 1000)
  = (Ok false, one_key 1000).
Proof.
  destruct (C4_is_active (mkYubiKey "1-2:1.0" "YubiKey 5") (one_key 1000))
    as (_ & _ & H & _).
  apply H; reflexivity.
Defined.

(** C1: [activate] on an active device returns false and leaves the
    machine, and so the log of writes, as it was; on an inactive device
    it writes the identifier to the [bind] control file, and returns true
    when the write succeeds: the log of writes then grows by exactly that
    write.  [deactivate] is the same with active and inactive exchanged
    and the [unbind] control file.  A write that fails raises its
    exception and adds nothing to the log. *)
Theorem C1_activate_deactivate (self : YubiKey) (w : world) :
  ((is_active self w).1 = Ok true → activate self w = (Ok false, w))
  ∧ ((is_active self w).1 = Ok false →
     activate self w =
       (match (write_file usbhid_bind (dev_id self) w).1 with
        | Ok _ => Ok true
        | Raise e => Raise e
        end, (write_file usbhid_bind (dev_id self) w).2)
     ∧ written (activate self w).2 =
       written w ++ match (activate self w).1 with
                    | Ok _ => [(usbhid_bind, dev_id self)]
                    | Raise _ => []
                    end)
  ∧ ((is_active self w).1 = Ok false → deactivate self w = (Ok false, w))
  ∧ ((is_active self w).1 = Ok true →
     deactivate self w =
       (match (write_file usbhid_unbind (dev_id self) w).1 with
        | Ok _ => Ok true
        | Raise e => Raise e
        end, (write_file usbhid_unbind (dev_id self) w).2)
     ∧ written (deactivate self w).2 =
       written w ++ match (deactivate self w).1 with
                    | Ok _ => [(usbhid_unbind, dev_id self)]
                    | Raise _ => []
                    end).
Proof.
  rewrite activate_run, deactivate_run.
  split; [by intros ->|]. split; [|split; [by intros ->|]].
  - intros ->. split; [done|]. cbn [fst snd]. rewrite write_file_written.
    by destruct (write_file usbhid_bind (dev_id self) w).1.
  - intros ->. split; [done|]. cbn [fst snd]. rewrite write_file_written.
    by destruct (write_file usbhid_unbind (dev_id self) w).1.
Qed.

Lemma C1_activate_deactivate_witness :
  activate (mkYubiKey "1-2:1.0" "YubiKey 5") (one_key 0)
  = (Ok true, (write_file usbhid_bind "1-2:1.0" (one_key 0)).2)
  ∧ written (activate (mkYubiKey "1-2:1.0" "YubiKey 5") (one_key 0)).2
    = [(usbhid_bind, "1-2:1.0")].
Proof.
  destruct (C1_activate_deactivate (mkYubiKey "1-2:1.0" "YubiKey 5") (one_key 0))
    as (_ & H & _).
  apply H. reflexivity.
Defined.

(** C8: for an interface of the bus, on a machine where the process is
    root, the control files are there and the driver's entry for the
    interface is not faulty: from the inactive state, [activate] returns
    true and the device is active, and a second [activate] returns false
    and leaves that state; from the active state, [deactivate] returns
    true and the device is inactive, and a second [deactivate] returns
    false and leaves that state. *)
Theorem C8_idempotent_in_effect (self : YubiKey) (w : world) :
  is_filename (dev_id self) = true →
  dev_id self ∈ bus w →
  euid w = 0 →
  faults w !! binding (dev_id self) = None →
  (∀ c, lookup_node w usbhid_bind = Ok (File c) →
        nodes w !! binding (dev_id self) = None →
        ∃ w1, activate self w = (Ok true, w1)
              ∧ is_active self w1 = (Ok true, w1)
              ∧ activate self w1 = (Ok false, w1)
              ∧ is_active self (activate self w1).2 = (Ok true, w1))
  ∧ (∀ c l, lookup_node w usbhid_unbind = Ok (File c) →
            nodes w !! binding (dev_id self) = Some (Dir l) →
            ∃ w1, deactivate self w = (Ok true, w1)
                  ∧ is_active self w1 = (Ok false, w1)
                  ∧ deactivate self w1 = (Ok false, w1)
                  ∧ is_active self (deactivate self w1).2 = (Ok false, w1)).
Proof.
  intros Hname Hbus Heuid Hfault.
  pose proof (is_filename_binding _ Hname) as Hpath.
  split.
  - intros c Hbind Hnone.
    set (w1 := set_nodes w usbhid_bind (dev_id self)
                 (<[binding (dev_id self):=Dir []]>
                    (add_entry usbhid (dev_id self) (nodes w)))).
    exists w1.
    assert (activate self w = (Ok true, w1)) as Hact.
    { rewrite activate_run, is_active_run, Hpath. unfold lookup_node at 1.
      rewrite Hfault, Hnone. cbn [fst is_FileNotFoundError].
      unfold write_file, driver_bind. rewrite Hbind, Heuid. cbn [Z.eqb negb].
      rewrite bool_decide_eq_true_2 by done.
      rewrite Hname, bool_decide_eq_true_2 by done. cbn [andb].
      by rewrite Hnone. }
    assert (is_active self w1 = (Ok true, w1)) as Hq.
    { rewrite is_active_run, Hpath. unfold lookup_node.
      cbn [faults nodes set_nodes w1].
      by rewrite Hfault, lookup_insert_eq. }
    split; [exact Hact|]. split; [exact Hq|].
    rewrite activate_run, Hq. by cbn [fst snd].
  - intros c l Hunbind Hsome.
    set (w1 := set_nodes w usbhid_unbind (dev_id self)
                 (delete (binding (dev_id self))
                    (remove_entry usbhid (dev_id self) (nodes w)))).
    exists w1.
    assert (deactivate self w = (Ok true, w1)) as Hact.
    { rewrite deactivate_run, is_active_run, Hpath. unfold lookup_node at 1.
      rewrite Hfault, Hsome. cbn [fst].
      unfold write_file, driver_unbind. rewrite Hunbind, Heuid. cbn [Z.eqb negb].
      rewrite bool_decide_eq_false_2 by done.
      rewrite bool_decide_eq_true_2 by done.
      rewrite Hname, bool_decide_eq_true_2 by done. cbn [andb].
      by rewrite Hsome. }
    assert (is_active self w1 = (Ok false, w1)) as Hq.
    { rewrite is_active_run, Hpath. unfold lookup_node.
      cbn [faults nodes set_nodes w1].
      by rewrite Hfault, lookup_delete_eq. }
    split; [exact Hact|]. split; [exact Hq|].
    rewrite deactivate_run, Hq. by cbn [fst snd].
Qed.

Lemma C8_idempotent_in_effect_witness :
  (∃ w1, activate (mkYubiKey "1-2:1.0" "YubiKey 5") (one_key 0) = (Ok true, w1)
         ∧ is_active (mkYubiKey "1-2:1.0" "YubiKey 5") w1 = (Ok true, w1)
         ∧ activate (mkYubiKey "1-2:1.0" "YubiKey 5") w1 = (Ok false, w1)
         ∧ is_active (mkYubiKey "1-2:1.0" "YubiKey 5")
             (activate (mkYubiKey "1-2:1.0" "YubiKey 5") w1).2 = (Ok true, w1))
  ∧ (∃ w1, deactivate (mkYubiKey "1-2:1.0" "YubiKey 5") one_key_bound
           = (Ok true, w1)
           ∧ is_active (mkYubiKey "1-2:1.0" "YubiKey 5") w1 = (Ok false, w1)
           ∧ deactivate (mkYubiKey "1-2:1.0" "YubiKey 5") w1 = (Ok false, w1)
           ∧ is_active (mkYubiKey "1-2:1.0" "YubiKey 5")
               (deactivate (mkYubiKey "1-2:1.0" "YubiKey 5") w1).2
             = (Ok false, w1)).
Proof.
  split.
  - destruct (C8_idempotent_in_effect (mkYubiKey "1-2:1.0" "YubiKey 5")
                (one_key 0)) as [H _]; [reflexivity..|].
    apply (H EmptyString); reflexivity.
  - destruct (C8_idempotent_in_effect (mkYubiKey "1-2:1.0" "YubiKey 5")
                one_key_bound) as [_ H]; [reflexivity..|].
    apply (H EmptyString []); reflexivity.
Defined.

(** ** The commands *)

Lemma main_as_root (args : Namespace) (w : world) :
  euid w = 0 →
  main args w =
  bind (get_yubikeys (args_debug args))
    (λ yubikeys,
       match args_command args with
       | cmd_on => for_in yubikeys on_body tt
       | cmd_off => for_in yubikeys off_body tt
       | cmd_list => for_in (enumerate yubikeys 1) list_body tt
       end) w.
Proof.
  intros Heuid. unfold main, os_geteuid, observe.
  destruct (args_command args); unfold bind, ret, when; cbn;
    rewrite ?Heuid; reflexivity.
Qed.

(** C6, as the code has it: in the batch of [on], and of [off], the
    exception of a failing device ends [main]: it reaches the invoker, and
    the machine is left as it was when the devices before the failing one
    had been processed; the devices after it are not processed. *)
Theorem C6_batch_stops_at_failure (debug : bool) (w w1 w2 : world)
    (pre post : list YubiKey) (y : YubiKey) (e : exn) :
  euid w = 0 →
  get_yubikeys debug w = (Ok (pre ++ y :: post), w1) →
  (for_in pre on_body tt w1 = (Ok tt, w2) →
   (activate y w2).1 = Raise e →
   main {| args_command := cmd_on; args_debug := debug |} w = (Raise e, w2))
  ∧ (for_in pre off_body tt w1 = (Ok tt, w2) →
     (deactivate y w2).1 = Raise e →
     main {| args_command := cmd_off; args_debug := debug |} w = (Raise e, w2)).
Proof.
  intros Heuid Hget. rewrite !(main_as_root _ _ Heuid). cbn [args_debug args_command].
  rewrite !(bind_ok _ _ _ _ _ Hget). split; intros Hpre Hy.
  - apply (for_in_raise _ _ _ _ _ _ _ _ _ _ Hpre). unfold on_body.
    apply bind_raise. destruct (activate y w2) as [r w3] eqn:Ha.
    cbn [fst] in Hy. subst r. by rewrite (activate_raise _ _ _ _ Ha).
  - apply (for_in_raise _ _ _ _ _ _ _ _ _ _ Hpre). unfold off_body.
    apply bind_raise. destruct (deactivate y w2) as [r w3] eqn:Ha.
    cbn [fst] in Hy. subst r. by rewrite (deactivate_raise _ _ _ _ Ha).
Qed.

Lemma C6_batch_stops_at_failure_witness :
  main {| args_command := cmd_on; args_debug := false |} two_interfaces
  = (Raise (OSError ENODEV), two_interfaces).
Proof.
  destruct (C6_batch_stops_at_failure false two_interfaces two_interfaces
              two_interfaces [] [mkYubiKey "1-2:1.0" "YubiKey 5"]
              (mkYubiKey "1-2:1.1" "YubiKey 5") (OSError ENODEV))
    as [H _]; [reflexivity | reflexivity |].
  apply H; reflexivity.
Defined.

(** C6, as the specification states it, fails: the driver refuses the first
    interface, the second one could be bound, but [main] ends with the
    exception of the first: nothing is written and nothing is printed for
    the second. *)
Lemma C6_counterexample :
  (get_yubikeys false two_interfaces).1
  = Ok [mkYubiKey "1-2:1.1" "YubiKey 5"; mkYubiKey "1-2:1.0" "YubiKey 5"]
  ∧ (activate (mkYubiKey "1-2:1.1" "YubiKey 5") two_interfaces).1
    = Raise (OSError ENODEV)
  ∧ (activate (mkYubiKey "1-2:1.0" "YubiKey 5") two_interfaces).1 = Ok true
  ∧ main {| args_command := cmd_on; args_debug := false |} two_interfaces
    = (Raise (OSError ENODEV), two_interfaces)
  ∧ written two_interfaces = [] ∧ stdout two_interfaces = [].
Proof. repeat split; vm_compute; reflexivity. Qed.

(** C9: on the machine with the single entry [1-2], a YubiKey 5 with the
    interface [1-2:1.0] that is not bound, the command [list] returns
    after printing exactly one line, the row below. *)
Theorem C9_list_one_key (uid : Z) :
  main {| args_command := cmd_list; args_debug := false |} (one_key uid)
  = (Ok tt, set_stdout (one_key uid)
              ["1) 1-2:1.0    YubiKey 5 (active=False)"]).
Proof. reflexivity. Qed.

(** * Further properties of the program *)

(** ** Privileges *)

Lemma rerun_as_root_run (a : option (list string)) (w : world) :
  rerun_as_root a w =
  match spawn w ("sudo" :: default (argv w) a) with
  | CannotStart e =>
      (Raise (OSError e),
       set_stdout w (stdout w ++ ["Root access required, re-running with sudo"]))
  | Exited status tree out =>
      (Raise (SystemExit status),
       after_spawn
         (set_stdout w (stdout w ++ ["Root access required, re-running with sudo"]))
         tree out)
  end.
Proof.
  unfold rerun_as_root, try_except, subprocess_check_call, sys_exit, sys_argv,
    observe, print, raise, ret, bind.
  destruct a as [a|]; cbn [default spawn argv set_stdout]; unfold id.
  - destruct (spawn w ("sudo" :: a)) as [e|status tree out]; [done|].
    by destruct (Z.eqb_spec status 0) as [->|_].
  - destruct (spawn w ("sudo" :: argv w)) as [e|status tree out]; [done|].
    by destruct (Z.eqb_spec status 0) as [->|_].
Qed.


Lemma main_not_root (args : Namespace) (w : world) :
  args_command args ≠ cmd_list →
  euid w ≠ 0 →
  main args w = rerun_as_root None w.
Proof.
  intros Hcmd Heuid. unfold main, os_geteuid, observe.
  apply Z.eqb_neq in Heuid.
  destruct (args_command args); [| |done];
    unfold bind at 1 2 3; unfold ret at 1; rewrite Heuid; cbn [negb when];
    by destruct (rerun_as_root None w) as [[[]|e] w'] eqn:Hr;
      [rewrite rerun_as_root_run in Hr; repeat case_match; simplify_eq|].
Qed.

Lemma main_not_root_raise (args : Namespace) (w : world) :
  args_command args ≠ cmd_list →
  euid w ≠ 0 →
  ∃ e w', main args w = (Raise e, w') ∧ written w' = written w.
Proof.
  intros Hcmd Heuid. rewrite (main_not_root _ _ Hcmd Heuid), rerun_as_root_run.
  destruct (spawn w _) as [e|status tree out]; by eexists _, _.
Qed.



(** ** More on control *)

Lemma is_active_stdout (self : YubiKey) (w : world) (out : list string) :
  is_active self (set_stdout w out) = ((is_active self w).1, set_stdout w out).
Proof. by rewrite !is_active_run. Qed.

(** The three ways [activate] can end. *)
Lemma activate_cases (self : YubiKey) (w : world) :
  (∃ e, activate self w = (Raise e, w))
  ∨ (activate self w = (Ok false, w) ∧ (is_active self w).1 = Ok true)
  ∨ (activate self w =
       (Ok true, set_nodes w usbhid_bind (dev_id self)
                   (<[binding (dev_id self):=Dir []]>
                      (add_entry usbhid (dev_id self) (nodes w))))
     ∧ (is_active self w).1 = Ok false
     ∧ is_filename (dev_id self) = true
     ∧ nodes w !! binding (dev_id self) = None).
Proof.
  rewrite activate_run.
  destruct (is_active self w).1 as [[]|e]; [by right; left| |by left; exists e].
  unfold write_file, driver_bind.
  destruct (lookup_node w usbhid_bind) as [[c|l|]|e]; cbn [fst snd];
    [|by left; eexists| |by left; eexists];
    (destruct (euid w =? 0); cbn [negb fst snd]; [|by left; eexists];
     rewrite bool_decide_eq_true_2 by done;
     destruct (is_filename (dev_id self)); cbn [andb fst snd];
       [|by left; eexists];
     case_bool_decide; cbn [fst snd]; [|by left; eexists];
     destruct (nodes w !! binding (dev_id self)); cbn [fst snd];
       [by left; eexists|];
     by right; right).
Qed.

(** The three ways [deactivate] can end. *)
Lemma deactivate_cases (self : YubiKey) (w : world) :
  (∃ e, deactivate self w = (Raise e, w))
  ∨ (deactivate self w = (Ok false, w) ∧ (is_active self w).1 = Ok false)
  ∨ (deactivate self w =
       (Ok true, set_nodes w usbhid_unbind (dev_id self)
                   (delete (binding (dev_id self))
                      (remove_entry usbhid (dev_id self) (nodes w))))
     ∧ (is_active self w).1 = Ok true
     ∧ is_filename (dev_id self) = true).
Proof.
  rewrite deactivate_run.
  destruct (is_active self w).1 as [[]|e]; [|by right; left|by left; exists e].
  unfold write_file, driver_unbind.
  destruct (lookup_node w usbhid_unbind) as [[c|l|]|e]; cbn [fst snd];
    [|by left; eexists| |by left; eexists];
    (destruct (euid w =? 0); cbn [negb fst snd]; [|by left; eexists];
     rewrite bool_decide_eq_false_2 by done;
     rewrite bool_decide_eq_true_2 by done;
     destruct (is_filename (dev_id self)); cbn [andb fst snd];
       [|by left; eexists];
     case_bool_decide; cbn [fst snd]; [|by left; eexists];
     destruct (nodes w !! binding (dev_id self)) as [[?|?|]|]; cbn [fst snd];
       [by left; eexists| |by left; eexists..];
     by right; right).
Qed.

(** X3: [is_active] only looks: it leaves the machine as it is, its
    answer does not depend on what has been printed, and it never raises
    [FileNotFoundError]. *)
Theorem X3_is_active_only_looks (self : YubiKey) (w : world) (out : list string) :
  (is_active self w).2 = w
  ∧ (is_active self (set_stdout w out)).1 = (is_active self w).1
  ∧ (is_active self w).1 ≠ Raise FileNotFoundError.
Proof.
  rewrite is_active_stdout, is_active_run. cbn [fst snd].
  split; [done|]. split; [done|].
  destruct (lookup_node w _) as [n|[[]| | |]]; done.
Qed.

(** X4: an [activate] or a [deactivate] that raises has changed nothing:
    the machine, and so the log of writes, is as it was before the call. *)
Theorem X4_failed_control_changes_nothing (self : YubiKey) (w : world) :
  (∀ e, (activate self w).1 = Raise e → (activate self w).2 = w)
  ∧ (∀ e, (deactivate self w).1 = Raise e → (deactivate self w).2 = w).
Proof.
  split; intros e He.
  - destruct (activate self w) as [r w'] eqn:H. cbn [fst snd] in *. subst r.
    by apply activate_raise in H.
  - destruct (deactivate self w) as [r w'] eqn:H. cbn [fst snd] in *. subst r.
    by apply deactivate_raise in H.
Qed.

Lemma X4_failed_control_changes_nothing_witness :
  (activate (mkYubiKey "1-2:1.1" "YubiKey 5") two_interfaces).2 = two_interfaces.
Proof.
  destruct (X4_failed_control_changes_nothing (mkYubiKey "1-2:1.1" "YubiKey 5")
              two_interfaces) as [H _].
  apply (H (OSError ENODEV)). reflexivity.
Defined.

Lemma lookup_node_ok (w : world) (path : string) (n : node) :
  lookup_node w path = Ok n ↔ faults w !! path = None ∧ nodes w !! path = Some n.
Proof.
  unfold lookup_node.
  destruct (faults w !! path); [by split; [|intros [? _]]|].
  destruct (nodes w !! path) as [n'|].
  - split; [by intros [= ->]|by intros [_ [= ->]]].
  - by split; [|intros [_ ?]].
Qed.

Lemma lookup_node_enoent (w : world) (path : string) :
  lookup_node w path = Raise (OSError ENOENT) ↔
  faults w !! path = Some ENOENT
  ∨ (faults w !! path = None ∧ nodes w !! path = None).
Proof.
  unfold lookup_node.
  destruct (faults w !! path) as [e|].
  - split; [intros [= ->]; by left | intros [[= ->]|[? _]]; done].
  - destruct (nodes w !! path) as [n|].
    + split; [done|]. by intros [?|[_ ?]].
    + split; [by right|done].
Qed.

Lemma is_active_true (self : YubiKey) (w : world) :
  (is_active self w).1 = Ok true ↔
  ∃ n, lookup_node w (os_path_join usbhid [dev_id self]) = Ok n.
Proof.
  rewrite is_active_run. cbn [fst].
  destruct (lookup_node w _) as [n|e].
  - split; [by exists n|done].
  - split; [by destruct (is_FileNotFoundError e)|by intros [? [=]]].
Qed.

Lemma is_active_false (self : YubiKey) (w : world) :
  (is_active self w).1 = Ok false ↔
  lookup_node w (os_path_join usbhid [dev_id self]) = Raise (OSError ENOENT).
Proof.
  rewrite is_active_run. cbn [fst].
  destruct (lookup_node w _) as [n|[[]| | |]]; by split.
Qed.

Lemma lookup_add_entry_ne (dir name path : string) (fs : gmap string node) :
  path ≠ dir → add_entry dir name fs !! path = fs !! path.
Proof.
  intros Hne. unfold add_entry.
  destruct (fs !! dir) as [[c|l|]|]; [done| |done..]. by rewrite lookup_insert_ne.
Qed.

Lemma lookup_remove_entry_ne (dir name path : string) (fs : gmap string node) :
  path ≠ dir → remove_entry dir name fs !! path = fs !! path.
Proof.
  intros Hne. unfold remove_entry.
  destruct (fs !! dir) as [[c|l|]|]; [done| |done..]. by rewrite lookup_insert_ne.
Qed.

Lemma lookup_add_entry_is_Some (dir name path : string) (fs : gmap string node) :
  is_Some (fs !! path) → is_Some (add_entry dir name fs !! path).
Proof.
  intros H. unfold add_entry.
  destruct (fs !! dir) as [[c|l|]|]; [done| |done..].
  rewrite lookup_insert. by case_decide.
Qed.

Lemma lookup_remove_entry_None (dir name path : string) (fs : gmap string node) :
  fs !! path = None → remove_entry dir name fs !! path = None.
Proof.
  intros H. unfold remove_entry.
  destruct (fs !! dir) as [[c|l|]|] eqn:Hd; [done| |done..].
  rewrite lookup_insert_ne; [done|]. intros <-. congruence.
Qed.

(** X5: [activate] followed by [deactivate] is a round trip.  For an
    inactive interface of the bus, with the process root and both control
    files there, both calls return true, the device is inactive again, the
    two writes are the only ones added to the log, and every node of the
    file tree but the listing of the driver's directory is as before. *)
Theorem X5_activate_deactivate_round_trip (self : YubiKey) (w : world)
    (c c' : string) :
  is_filename (dev_id self) = true →
  dev_id self ∈ bus w →
  euid w = 0 →
  faults w !! binding (dev_id self) = None →
  nodes w !! binding (dev_id self) = None →
  lookup_node w usbhid_bind = Ok (File c) →
  lookup_node w usbhid_unbind = Ok (File c') →
  ∃ w1 w2,
    activate self w = (Ok true, w1)
    ∧ deactivate self w1 = (Ok true, w2)
    ∧ (is_active self w2).1 = Ok false
    ∧ written w2 = written w ++ [(usbhid_bind, dev_id self);
                                  (usbhid_unbind, dev_id self)]
    ∧ ∀ path, path ≠ usbhid → nodes w2 !! path = nodes w !! path.
Proof.
  intros Hname Hbus Heuid Hfault Hnone Hbind Hunbind.
  pose proof (is_filename_binding _ Hname) as Hpath.
  apply lookup_node_ok in Hunbind as [Hfu Hnu].
  assert (binding (dev_id self) ≠ usbhid_unbind) as Hne by congruence.
  set (w1 := set_nodes w usbhid_bind (dev_id self)
               (<[binding (dev_id self):=Dir []]>
                  (add_entry usbhid (dev_id self) (nodes w)))).
  set (w2 := set_nodes w1 usbhid_unbind (dev_id self)
               (delete (binding (dev_id self))
                  (remove_entry usbhid (dev_id self) (nodes w1)))).
  exists w1, w2.
  assert (activate self w = (Ok true, w1)) as Hact.
  { rewrite activate_run, is_active_run, Hpath. unfold lookup_node at 1.
    rewrite Hfault, Hnone. cbn [fst is_FileNotFoundError].
    unfold write_file, driver_bind. rewrite Hbind, Heuid. cbn [Z.eqb negb].
    rewrite bool_decide_eq_true_2 by done.
    rewrite Hname, bool_decide_eq_true_2 by done. cbn [andb].
    by rewrite Hnone. }
  assert (deactivate self w1 = (Ok true, w2)) as Hdeact.
  { rewrite deactivate_run, is_active_run, Hpath. unfold lookup_node at 1.
    cbn [faults nodes set_nodes w1]. rewrite Hfault, lookup_insert_eq.
    cbn [fst]. unfold write_file, driver_unbind, lookup_node.
    cbn [faults nodes euid bus set_nodes w1].
    rewrite Hfu, lookup_insert_ne, lookup_add_entry_ne, Hnu, Heuid by done.
    cbn [Z.eqb negb].
    rewrite bool_decide_eq_false_2 by done.
    rewrite bool_decide_eq_true_2 by done.
    rewrite Hname, bool_decide_eq_true_2 by done. cbn [andb].
    by rewrite lookup_insert_eq. }
  split; [done|]. split; [done|]. split; [|split].
  - apply is_active_false. rewrite Hpath. apply lookup_node_enoent. right.
    cbn [faults nodes set_nodes w1 w2]. by rewrite lookup_delete_eq.
  - cbn [written set_nodes w1 w2]. by rewrite <- app_assoc.
  - intros path Hp. cbn [nodes set_nodes w1 w2].
    destruct (decide (path = binding (dev_id self))) as [->|Hb].
    + by rewrite lookup_delete_eq.
    + by rewrite lookup_delete_ne, lookup_remove_entry_ne, lookup_insert_ne,
        lookup_add_entry_ne.
Qed.

Lemma X5_activate_deactivate_round_trip_witness :
  ∃ w1 w2,
    activate (mkYubiKey "1-2:1.0" "YubiKey 5") (one_key 0) = (Ok true, w1)
    ∧ deactivate (mkYubiKey "1-2:1.0" "YubiKey 5") w1 = (Ok true, w2)
    ∧ (is_active (mkYubiKey "1-2:1.0" "YubiKey 5") w2).1 = Ok false
    ∧ written w2 = written (one_key 0)
                   ++ [(usbhid_bind, "1-2:1.0"); (usbhid_unbind, "1-2:1.0")]
    ∧ ∀ path, path ≠ usbhid → nodes w2 !! path = nodes (one_key 0) !! path.
Proof.
  apply (X5_activate_deactivate_round_trip (mkYubiKey "1-2:1.0" "YubiKey 5")
           (one_key 0) EmptyString EmptyString); reflexivity.
Defined.

(** ** The batches of [on] and [off] *)

Lemma activate_keeps_active (x z : YubiKey) (w w' : world) (b : bool) :
  (is_active x w).1 = Ok true →
  activate z w = (Ok b, w') →
  (is_active x w').1 = Ok true.
Proof.
  intros Hx Hz.
  destruct (activate_cases z w) as [[e He]|[[He _]|[He _]]];
    rewrite He in Hz; simplify_eq; [done|].
  apply is_active_true in Hx as [n [Hf Hn]%lookup_node_ok].
  apply is_active_true.
  assert (is_Some ((<[binding (dev_id z):=Dir []]>
                      (add_entry usbhid (dev_id z) (nodes w)))
                   !! os_path_join usbhid [dev_id x])) as [n' Hn'].
  { rewrite lookup_insert. case_decide; [done|].
    apply lookup_add_entry_is_Some. by rewrite Hn. }
  exists n'. by apply lookup_node_ok.
Qed.

Lemma activate_makes_active (y : YubiKey) (w w' : world) (b : bool) :
  faults w !! os_path_join usbhid [dev_id y] ≠ Some ENOENT →
  activate y w = (Ok b, w') →
  (is_active y w').1 = Ok true.
Proof.
  intros Hf Hy.
  destruct (activate_cases y w) as [[e He]|[[He Ha]|(He & Ha & Hname & _)]];
    rewrite He in Hy; simplify_eq; [done|].
  apply is_active_false, lookup_node_enoent in Ha as [?|[Hnf _]]; [done|].
  apply is_active_true. exists (Dir []). apply lookup_node_ok.
  cbn [faults nodes set_nodes]. split; [done|].
  by rewrite (is_filename_binding _ Hname), lookup_insert_eq.
Qed.

Lemma deactivate_keeps_inactive (x z : YubiKey) (w w' : world) (b : bool) :
  (is_active x w).1 = Ok false →
  deactivate z w = (Ok b, w') →
  (is_active x w').1 = Ok false.
Proof.
  intros Hx Hz.
  destruct (deactivate_cases z w) as [[e He]|[[He _]|[He _]]];
    rewrite He in Hz; simplify_eq; [done|].
  apply is_active_false, lookup_node_enoent in Hx.
  apply is_active_false, lookup_node_enoent. cbn [faults nodes set_nodes].
  destruct Hx as [?|[Hf Hn]]; [by left|right]. split; [done|].
  rewrite lookup_delete. case_decide; [done|].
  by apply lookup_remove_entry_None.
Qed.

Lemma deactivate_makes_inactive (y : YubiKey) (w w' : world) (b : bool) :
  deactivate y w = (Ok b, w') →
  (is_active y w').1 = Ok false.
Proof.
  intros Hy.
  destruct (deactivate_cases y w) as [[e He]|[[He Ha]|(He & Ha & Hname)]];
    rewrite He in Hy; simplify_eq; [done|].
  apply is_active_true in Ha as [n [Hf _]%lookup_node_ok].
  apply is_active_false, lookup_node_enoent. right.
  cbn [faults nodes set_nodes]. split; [done|].
  by rewrite (is_filename_binding _ Hname), lookup_delete_eq.
Qed.

(** What one iteration of the loops of [on] and [off] does. *)
Lemma on_body_run (y : YubiKey) (w : world) :
  on_body y tt w =
  match activate y w with
  | (Ok b, w') =>
      (Ok tt, set_stdout w'
                (stdout w' ++
                 [(if b then "Yubikey activated successfully: "
                   else "Yubikey already active: ") +:+ YubiKey_repr y]))
  | (Raise e, w') => (Raise e, w')
  end.
Proof.
  unfold on_body, bind, print. by destruct (activate y w) as [[[]|e] w'].
Qed.

Lemma off_body_run (y : YubiKey) (w : world) :
  off_body y tt w =
  match deactivate y w with
  | (Ok b, w') =>
      (Ok tt, set_stdout w'
                (stdout w' ++
                 [(if b then "Yubikey deactivated successfully: "
                   else "Yubikey already inactive: ") +:+ YubiKey_repr y]))
  | (Raise e, w') => (Raise e, w')
  end.
Proof.
  unfold off_body, bind, print. by destruct (deactivate y w) as [[[]|e] w'].
Qed.

Lemma activate_faults (y : YubiKey) (w : world) :
  faults (activate y w).2 = faults w.
Proof.
  destruct (activate_cases y w) as [[e He]|[[He _]|[He _]]]; by rewrite He.
Qed.

Lemma for_in_on_active (ys : list YubiKey) (w w' : world) :
  for_in ys on_body tt w = (Ok tt, w') →
  faults w' = faults w
  ∧ (∀ x, (is_active x w).1 = Ok true → (is_active x w').1 = Ok true)
  ∧ ((∀ y, y ∈ ys → faults w !! os_path_join usbhid [dev_id y] ≠ Some ENOENT) →
     ∀ y, y ∈ ys → (is_active y w').1 = Ok true).
Proof.
  revert w. induction ys as [|z ys IH]; intros w.
  - intros [= <-]. split; [done|]. split; [done|]. by intros _ y ?%elem_of_nil.
  - cbn [for_in]. unfold bind. rewrite on_body_run.
    pose proof (activate_faults z w) as Hfz.
    destruct (activate z w) as [[b|e] w1] eqn:Hz; [|done].
    cbn [snd] in Hfz.
    intros (Hf & Hkeep & Hall)%IH. cbn [faults set_stdout] in Hf, Hall.
    rewrite Hfz in Hf, Hall.
    assert (∀ x, (is_active x w1).1 = Ok true → (is_active x w').1 = Ok true)
      as Hkeep1.
    { intros x Hx. apply Hkeep. by rewrite is_active_stdout. }
    split; [done|]. split.
    + intros x Hx. apply Hkeep1. by apply (activate_keeps_active x z w w1 b).
    + intros Hno y [->|Hy]%elem_of_cons.
      * apply Hkeep1, (activate_makes_active _ w w1 b); [|done].
        apply Hno. by left.
      * apply Hall; [|done]. intros y' Hy'. apply Hno. by right.
Qed.

Lemma for_in_off_inactive (ys : list YubiKey) (w w' : world) :
  for_in ys off_body tt w = (Ok tt, w') →
  (∀ x, (is_active x w).1 = Ok false → (is_active x w').1 = Ok false)
  ∧ ∀ y, y ∈ ys → (is_active y w').1 = Ok false.
Proof.
  revert w. induction ys as [|z ys IH]; intros w.
  - intros [= <-]. split; [done|]. by intros y ?%elem_of_nil.
  - cbn [for_in]. unfold bind. rewrite off_body_run.
    destruct (deactivate z w) as [[b|e] w1] eqn:Hz; [|done].
    intros (Hkeep & Hall)%IH.
    assert (∀ x, (is_active x w1).1 = Ok false → (is_active x w').1 = Ok false)
      as Hkeep1.
    { intros x Hx. apply Hkeep. by rewrite is_active_stdout. }
    split.
    + intros x Hx. apply Hkeep1.
      by apply (deactivate_keeps_inactive x z w w1 b).
    + intros y [->|Hy]%elem_of_cons; [|by apply Hall].
      by apply Hkeep1, (deactivate_makes_inactive _ w w1 b).
Qed.

(** X6: when [on] runs to its end, every discovered device is active,
    provided no lookup of a device's entry in the driver's directory is
    made to fail with [ENOENT].  When [off] runs to its end, every
    discovered device is inactive. *)
Theorem X6_batch_reaches_all (debug : bool) (w w' : world)
    (ys : list YubiKey) :
  (get_yubikeys debug w).1 = Ok ys →
  (main {| args_command := cmd_on; args_debug := debug |} w = (Ok tt, w') →
   (∀ y, y ∈ ys → faults w !! os_path_join usbhid [dev_id y] ≠ Some ENOENT) →
   ∀ y, y ∈ ys → (is_active y w').1 = Ok true)
  ∧ (main {| args_command := cmd_off; args_debug := debug |} w = (Ok tt, w') →
     ∀ y, y ∈ ys → (is_active y w').1 = Ok false).
Proof.
  intros Hget.
  destruct (get_yubikeys_run debug w) as (out & Hrun & _).
  rewrite Hrun in Hget. cbn [fst] in Hget.
  split.
  - intros Hmain Hno.
    destruct (decide (euid w = 0)) as [Heuid|Heuid];
      [|by match type of Hmain with
           | main ?a w = _ =>
               destruct (main_not_root_raise a w ltac:(done) Heuid)
                 as (e & w0 & He & _); rewrite He in Hmain
           end].
    rewrite (main_as_root _ _ Heuid) in Hmain. unfold bind in Hmain.
    cbn [args_debug args_command] in Hmain. rewrite Hrun, Hget in Hmain.
    apply for_in_on_active in Hmain as (_ & _ & Hall). by apply Hall.
  - intros Hmain.
    destruct (decide (euid w = 0)) as [Heuid|Heuid];
      [|by match type of Hmain with
           | main ?a w = _ =>
               destruct (main_not_root_raise a w ltac:(done) Heuid)
                 as (e & w0 & He & _); rewrite He in Hmain
           end].
    rewrite (main_as_root _ _ Heuid) in Hmain. unfold bind in Hmain.
    cbn [args_debug args_command] in Hmain. rewrite Hrun, Hget in Hmain.
    by apply for_in_off_inactive in Hmain as [_ Hall].
Qed.

Lemma X6_batch_reaches_all_witness :
  (is_active (mkYubiKey "1-2:1.0" "YubiKey 5")
     (main {| args_command := cmd_on; args_debug := false |} (one_key 0)).2).1
  = Ok true.
Proof.
  destruct (X6_batch_reaches_all false (one_key 0)
              (main {| args_command := cmd_on; args_debug := false |}
                 (one_key 0)).2
              [mkYubiKey "1-2:1.0" "YubiKey 5"]) as [H _]; [reflexivity|].
  apply H; [reflexivity| |by left]. intros y _. cbn [faults one_key].
  by rewrite lookup_empty.
Defined.

Lemma for_in_on_noop (ys : list YubiKey) (w : world) :
  (∀ y, y ∈ ys → (is_active y w).1 = Ok true) →
  for_in ys on_body tt w =
  (Ok tt, set_stdout w
            (stdout w ++
             map (λ y, "Yubikey already active: " +:+ YubiKey_repr y) ys)).
Proof.
  revert w. induction ys as [|z ys IH]; intros w Hall.
  - cbn. unfold ret. by rewrite set_stdout_nil.
  - cbn [for_in map]. unfold bind. rewrite on_body_run, activate_run.
    rewrite Hall by left. rewrite IH.
    + cbn [stdout set_stdout]. by rewrite <- app_assoc.
    + intros y Hy. rewrite is_active_stdout. apply Hall. by right.
Qed.

Lemma for_in_off_noop (ys : list YubiKey) (w : world) :
  (∀ y, y ∈ ys → (is_active y w).1 = Ok false) →
  for_in ys off_body tt w =
  (Ok tt, set_stdout w
            (stdout w ++
             map (λ y, "Yubikey already inactive: " +:+ YubiKey_repr y) ys)).
Proof.
  revert w. induction ys as [|z ys IH]; intros w Hall.
  - cbn. unfold ret. by rewrite set_stdout_nil.
  - cbn [for_in map]. unfold bind. rewrite off_body_run, deactivate_run.
    rewrite Hall by left. rewrite IH.
    + cbn [stdout set_stdout]. by rewrite <- app_assoc.
    + intros y Hy. rewrite is_active_stdout. apply Hall. by right.
Qed.

(** X7: [on] over devices that are all active, and [off] over devices
    that are all inactive, change nothing: one "already" line per device
    is printed, in the order of discovery, and the machine is otherwise as
    it was. *)
Theorem X7_batch_noop (debug : bool) (w w1 : world) (ys : list YubiKey) :
  euid w = 0 →
  get_yubikeys debug w = (Ok ys, w1) →
  ((∀ y, y ∈ ys → (is_active y w).1 = Ok true) →
   main {| args_command := cmd_on; args_debug := debug |} w =
   (Ok tt, set_stdout w
             (stdout w1 ++
              map (λ y, "Yubikey already active: " +:+ YubiKey_repr y) ys)))
  ∧ ((∀ y, y ∈ ys → (is_active y w).1 = Ok false) →
     main {| args_command := cmd_off; args_debug := debug |} w =
     (Ok tt, set_stdout w
               (stdout w1 ++
                map (λ y, "Yubikey already inactive: " +:+ YubiKey_repr y) ys))).
Proof.
  intros Heuid Hget. rewrite !(main_as_root _ _ Heuid).
  cbn [args_debug args_command]. rewrite !(bind_ok _ _ _ _ _ Hget).
  destruct (get_yubikeys_run debug w) as (out & Hrun & _).
  rewrite Hrun in Hget. injection Hget as _ <-.
  split; intros Hall.
  - rewrite for_in_on_noop; [done|].
    intros y Hy. rewrite is_active_stdout. by apply Hall.
  - rewrite for_in_off_noop; [done|].
    intros y Hy. rewrite is_active_stdout. by apply Hall.
Qed.

Lemma X7_batch_noop_witness :
  main {| args_command := cmd_off; args_debug := false |} (one_key 0) =
  (Ok tt, set_stdout (one_key 0)
            (stdout (one_key 0) ++
             map (λ y, "Yubikey already inactive: " +:+ YubiKey_repr y)
               [mkYubiKey "1-2:1.0" "YubiKey 5"])).
Proof.
  destruct (X7_batch_noop false (one_key 0) (one_key 0)
              [mkYubiKey "1-2:1.0" "YubiKey 5"]) as [_ H]; [reflexivity..|].
  apply H. by intros y ->%list_elem_of_singleton.
Defined.

(** The writes of the loops of [on] and [off], however they end. *)
Lemma for_in_on_written (ys : list YubiKey) (w : world) :
  ∃ zs, sublist zs ys
        ∧ written (for_in ys on_body tt w).2
          = written w ++ map (λ y, (usbhid_bind, dev_id y)) zs.
Proof.
  revert w. induction ys as [|z ys IH]; intros w.
  - exists []. by rewrite app_nil_r.
  - cbn [for_in]. unfold bind. rewrite on_body_run.
    destruct (activate_cases z w) as [[e He]|[[He _]|[He _]]]; rewrite He.
    + exists []. split; [apply sublist_nil_l|]. by rewrite app_nil_r.
    + destruct (IH (set_stdout w (stdout w ++
                     ["Yubikey already active: " +:+ YubiKey_repr z])))
        as (zs & Hs & Hw).
      exists zs. split; [by apply sublist_cons_r; left|].
      destruct (for_in ys on_body _ _) as [r w']. exact Hw.
    + match goal with
      | |- context [for_in ys on_body tt ?w1] =>
          destruct (IH w1) as (zs & Hs & Hw)
      end.
      exists (z :: zs). split; [by apply sublist_skip|].
      destruct (for_in ys on_body _ _) as [r w']. cbn [snd] in *.
      rewrite Hw. cbn [written set_stdout set_nodes map].
      by rewrite <- app_assoc.
Qed.

Lemma for_in_off_written (ys : list YubiKey) (w : world) :
  ∃ zs, sublist zs ys
        ∧ written (for_in ys off_body tt w).2
          = written w ++ map (λ y, (usbhid_unbind, dev_id y)) zs.
Proof.
  revert w. induction ys as [|z ys IH]; intros w.
  - exists []. by rewrite app_nil_r.
  - cbn [for_in]. unfold bind. rewrite off_body_run.
    destruct (deactivate_cases z w) as [[e He]|[[He _]|[He _]]]; rewrite He.
    + exists []. split; [apply sublist_nil_l|]. by rewrite app_nil_r.
    + destruct (IH (set_stdout w (stdout w ++
                     ["Yubikey already inactive: " +:+ YubiKey_repr z])))
        as (zs & Hs & Hw).
      exists zs. split; [by apply sublist_cons_r; left|].
      destruct (for_in ys off_body _ _) as [r w']. exact Hw.
    + match goal with
      | |- context [for_in ys off_body tt ?w1] =>
          destruct (IH w1) as (zs & Hs & Hw)
      end.
      exists (z :: zs). split; [by apply sublist_skip|].
      destruct (for_in ys off_body _ _) as [r w']. cbn [snd] in *.
      rewrite Hw. cbn [written set_stdout set_nodes map].
      by rewrite <- app_assoc.
Qed.

(** X8: whatever its outcome, [on] writes nothing but identifiers of
    discovered devices to the [bind] control file, and [off] nothing but
    such identifiers to the [unbind] control file, each device at most
    once and in the order of discovery. *)
Theorem X8_batch_writes (debug : bool) (w : world) (ys : list YubiKey) :
  (get_yubikeys debug w).1 = Ok ys →
  (∃ zs, sublist zs ys
         ∧ written (main {| args_command := cmd_on; args_debug := debug |} w).2
           = written w ++ map (λ y, (usbhid_bind, dev_id y)) zs)
  ∧ (∃ zs, sublist zs ys
           ∧ written (main {| args_command := cmd_off; args_debug := debug |} w).2
             = written w ++ map (λ y, (usbhid_unbind, dev_id y)) zs).
Proof.
  intros Hget.
  destruct (get_yubikeys_run debug w) as (out & Hrun & _).
  rewrite Hrun in Hget. cbn [fst] in Hget.
  destruct (decide (euid w = 0)) as [Heuid|Heuid].
  - rewrite !(main_as_root _ _ Heuid). unfold bind.
    cbn [args_debug args_command]. rewrite Hrun, Hget. split.
    + apply (for_in_on_written ys (set_stdout w (stdout w ++ out))).
    + apply (for_in_off_written ys (set_stdout w (stdout w ++ out))).
  - split; exists [];
      (split; [apply sublist_nil_l|]; rewrite app_nil_r;
       by match goal with
          | |- written (main ?a w).2 = _ =>
              destruct (main_not_root_raise a w ltac:(done) Heuid)
                as (e & w0 & -> & ?)
          end).
Qed.

Lemma X8_batch_writes_witness :
  (∃ zs, sublist zs [mkYubiKey "1-2:1.1" "YubiKey 5";
                     mkYubiKey "1-2:1.0" "YubiKey 5"]
         ∧ written (main {| args_command := cmd_on; args_debug := true |}
                      two_interfaces).2
           = written two_interfaces ++ map (λ y, (usbhid_bind, dev_id y)) zs)
  ∧ (∃ zs, sublist zs [mkYubiKey "1-2:1.1" "YubiKey 5";
                       mkYubiKey "1-2:1.0" "YubiKey 5"]
           ∧ written (main {| args_command := cmd_off; args_debug := true |}
                        two_interfaces).2
             = written two_interfaces
               ++ map (λ y, (usbhid_unbind, dev_id y)) zs).
Proof.
  apply (X8_batch_writes true two_interfaces
           [mkYubiKey "1-2:1.1" "YubiKey 5"; mkYubiKey "1-2:1.0" "YubiKey 5"]).
  reflexivity.
Defined.

(** ** The command [list] *)

Lemma list_body_run (item : Z * YubiKey) (w : world) :
  list_body item tt w =
  match (is_active item.2 w).1 with
  | Ok s =>
      (Ok tt, set_stdout w
                (stdout w ++
                 [str_int item.1 +:+ ") " +:+ ljust (dev_id item.2) 10 +:+ " "
                  +:+ product item.2 +:+ " (active=" +:+ str_bool s +:+ ")"]))
  | Raise e => (Raise e, w)
  end.
Proof.
  unfold list_body, bind, print. rewrite is_active_run. cbn [fst].
  destruct (lookup_node w _) as [n|e]; [done|].
  by destruct (is_FileNotFoundError e).
Qed.

Lemma for_in_list_rows (active : YubiKey → bool) (ys : list YubiKey)
    (start : Z) (w : world) :
  (∀ y, y ∈ ys → (is_active y w).1 = Ok (active y)) →
  for_in (enumerate ys start) list_body tt w =
  (Ok tt, set_stdout w
            (stdout w ++
             map (λ item : Z * YubiKey,
                    str_int item.1 +:+ ") " +:+ ljust (dev_id item.2) 10
                    +:+ " " +:+ product item.2
                    +:+ " (active=" +:+ str_bool (active item.2) +:+ ")")
               (enumerate ys start))).
Proof.
  revert start w. induction ys as [|z ys IH]; intros start w Hall.
  - cbn. unfold ret. by rewrite set_stdout_nil.
  - cbn [enumerate for_in map]. unfold bind. rewrite list_body_run.
    cbn [fst snd]. rewrite Hall by left. rewrite IH.
    + cbn [stdout set_stdout]. by rewrite <- app_assoc.
    + intros y Hy. rewrite is_active_stdout. apply Hall. by right.
Qed.

Lemma for_in_list_only_prints (items : list (Z * YubiKey)) (w : world) :
  ∃ out, (for_in items list_body tt w).2 = set_stdout w (stdout w ++ out).
Proof.
  revert w. induction items as [|item items IH]; intros w.
  - exists []. cbn. by rewrite set_stdout_nil.
  - cbn [for_in]. unfold bind. rewrite list_body_run.
    destruct (is_active item.2 w).1 as [s|e].
    + match goal with
      | |- context [for_in items list_body tt (set_stdout w (stdout w ++ ?l))] =>
          destruct (IH (set_stdout w (stdout w ++ l))) as [out Hout];
          exists (l ++ out)
      end.
      destruct (for_in items list_body _ _) as [r w']. cbn [snd] in *.
      rewrite Hout. cbn [stdout set_stdout]. by rewrite <- app_assoc.
    + exists []. cbn. by rewrite set_stdout_nil.
Qed.

Lemma main_list (debug : bool) (w : world) :
  main {| args_command := cmd_list; args_debug := debug |} w =
  bind (get_yubikeys debug)
    (λ yubikeys, for_in (enumerate yubikeys 1) list_body tt) w.
Proof. reflexivity. Qed.

(** A raising system call raises an [OSError]; reading a file in text
    mode can also raise [UnicodeDecodeError]. *)
Lemma lookup_node_raise (w : world) (path : string) (e : exn) :
  lookup_node w path = Raise e → is_OSError e = true.
Proof.
  unfold lookup_node. destruct (faults w !! path); [by intros [= <-]|].
  destruct (nodes w !! path); [done|by intros [= <-]].
Qed.

Lemma read_raise (w : world) (path : string) (e : exn) :
  read w path = Raise e → is_OSError e = true ∨ e = UnicodeDecodeError.
Proof.
  unfold read. destruct (lookup_node w path) as [[c|l|]|e'] eqn:H;
    [done|intros [= <-]; by left|intros [= <-]; by right|].
  intros [= <-]. left. by apply lookup_node_raise in H.
Qed.

Lemma listdir_raise (w : world) (path : string) (e : exn) :
  listdir w path = Raise e → is_OSError e = true.
Proof.
  unfold listdir. destruct (lookup_node w path) as [[c|l|]|e'] eqn:H;
    [by intros [= <-]|done|by intros [= <-]|].
  intros [= <-]. by apply lookup_node_raise in H.
Qed.

Lemma device_result_raise (w : world) (d : string) (ys : list YubiKey)
    (e : exn) :
  device_result w d ys = Raise e → is_OSError e = true ∨ e = UnicodeDecodeError.
Proof.
  unfold device_result.
  destruct (read w (manufacturer_path d)) as [m|e'] eqn:Hm.
  - case_bool_decide; [|done].
    destruct (read w (product_path d)) as [c|e''] eqn:Hp;
      [|intros [= <-]; by apply read_raise in Hp].
    destruct (listdir w (device_path d)) as [l|e''] eqn:Hl; [done|].
    intros [= <-]. left. by apply listdir_raise in Hl.
  - apply read_raise in Hm as [Hm| ->]; [by rewrite Hm|].
    intros [= <-]. by right.
Qed.

Lemma scan_result_raise (w : world) (entries : list string)
    (ys : list YubiKey) (e : exn) :
  scan_result w entries ys = Raise e → is_OSError e = true ∨ e = UnicodeDecodeError.
Proof.
  revert ys. induction entries as [|d entries IH]; intros ys; [done|].
  cbn [scan_result]. destruct (device_result w d ys) as [ys'|e'] eqn:Hd.
  - apply IH.
  - intros [= <-]. by apply device_result_raise in Hd.
Qed.

Lemma get_yubikeys_raise (debug : bool) (w : world) (e : exn) :
  (get_yubikeys debug w).1 = Raise e →
  is_OSError e = true ∨ e = UnicodeDecodeError.
Proof.
  destruct (get_yubikeys_run debug w) as (out & -> & _). cbn [fst].
  destruct (listdir w basepath) as [entries|e'] eqn:Hl.
  - apply scan_result_raise.
  - intros [= <-]. left. by apply listdir_raise in Hl.
Qed.

Lemma is_active_raise (self : YubiKey) (w : world) (e : exn) :
  (is_active self w).1 = Raise e → is_OSError e = true.
Proof.
  rewrite is_active_run. cbn [fst].
  destruct (lookup_node w _) as [n|e'] eqn:H; [done|].
  destruct (is_FileNotFoundError e'); [done|].
  intros [= <-]. by apply lookup_node_raise in H.
Qed.

Lemma for_in_list_raise (items : list (Z * YubiKey)) (w : world) (e : exn) :
  (for_in items list_body tt w).1 = Raise e → is_OSError e = true.
Proof.
  revert w. induction items as [|item items IH]; intros w; [done|].
  cbn [for_in]. unfold bind. rewrite list_body_run.
  destruct (is_active item.2 w).1 as [s|e'] eqn:Ha; [apply IH|].
  intros [= <-]. by apply is_active_raise in Ha.
Qed.

(** X9: when the state of every discovered device can be queried, [list]
    prints one row per device, in the order of discovery and numbered
    from 1: the number, the identifier left-justified in ten characters,
    the product and the state of the device, and returns. *)
Theorem X9_list_rows (debug : bool) (w w1 : world) (ys : list YubiKey)
    (active : YubiKey → bool) :
  get_yubikeys debug w = (Ok ys, w1) →
  (∀ y, y ∈ ys → (is_active y w).1 = Ok (active y)) →
  main {| args_command := cmd_list; args_debug := debug |} w =
  (Ok tt, set_stdout w
            (stdout w1 ++
             map (λ item : Z * YubiKey,
                    str_int item.1 +:+ ") " +:+ ljust (dev_id item.2) 10
                    +:+ " " +:+ product item.2
                    +:+ " (active=" +:+ str_bool (active item.2) +:+ ")")
               (enumerate ys 1))).
Proof.
  intros Hget Hall. rewrite main_list, (bind_ok _ _ _ _ _ Hget).
  destruct (get_yubikeys_run debug w) as (out & Hrun & _).
  rewrite Hrun in Hget. injection Hget as _ <-.
  rewrite (for_in_list_rows active); [done|].
  intros y Hy. rewrite is_active_stdout. by apply Hall.
Qed.

Lemma X9_list_rows_witness :
  main {| args_command := cmd_list; args_debug := false |} one_key_bound =
  (Ok tt, set_stdout one_key_bound
            (stdout one_key_bound ++
             map (λ item : Z * YubiKey,
                    str_int item.1 +:+ ") " +:+ ljust (dev_id item.2) 10
                    +:+ " " +:+ product item.2
                    +:+ " (active=" +:+ str_bool true +:+ ")")
               (enumerate [mkYubiKey "1-2:1.0" "YubiKey 5"] 1))).
Proof.
  apply (X9_list_rows false one_key_bound one_key_bound
           [mkYubiKey "1-2:1.0" "YubiKey 5"] (λ _, true)); [reflexivity|].
  by intros y ->%list_elem_of_singleton.
Defined.

(** X10: [list] only reads and prints, whoever runs it and however it
    ends: the machine it leaves differs from the one it found by appended
    output lines only, and an exception it ends with is the [OSError] of
    a failed system call or the [UnicodeDecodeError] of an attribute file
    that is no text, never the exit of a hand-over to [sudo]. *)
Theorem X10_list_only_prints (debug : bool) (w : world) :
  (∃ out, (main {| args_command := cmd_list; args_debug := debug |} w).2
          = set_stdout w (stdout w ++ out))
  ∧ ∀ e, (main {| args_command := cmd_list; args_debug := debug |} w).1
         = Raise e → is_OSError e = true ∨ e = UnicodeDecodeError.
Proof.
  rewrite main_list. unfold bind.
  pose proof (get_yubikeys_raise debug w) as Hraise.
  destruct (get_yubikeys_run debug w) as (out & Hrun & _).
  rewrite Hrun in Hraise |- *. cbn [fst] in Hraise.
  destruct (match listdir w basepath with
            | Ok entries => scan_result w entries []
            | Raise e => Raise e
            end) as [ys|e].
  - destruct (for_in_list_only_prints (enumerate ys 1)
                (set_stdout w (stdout w ++ out))) as [out' Hout].
    split; [|intros e He; left; by apply for_in_list_raise in He].
    exists (out ++ out'). rewrite Hout. cbn [stdout set_stdout].
    by rewrite <- app_assoc.
  - split; [by exists out|]. intros e' [= <-]. by apply Hraise.
Qed.

Lemma X10_list_only_prints_witness :
  (main {| args_command := cmd_list; args_debug := false |} binary_manufacturer).1
  = Raise UnicodeDecodeError
  ∧ (is_OSError UnicodeDecodeError = true
     ∨ UnicodeDecodeError = UnicodeDecodeError).
Proof.
  split; [reflexivity|].
  destruct (X10_list_only_prints false binary_manufacturer) as [_ H].
  apply H. reflexivity.
Defined.

(** ** More on discovery *)

Lemma device_result_handle (w : world) (d : string) (yubikeys ys : list YubiKey)
    (y : YubiKey) :
  device_result w d yubikeys = Ok ys → y ∈ ys →
  y ∈ yubikeys ∨
  (issubset (dev_id y) "0123456789-:." = true
   ∧ isdir w (os_path_join basepath [d; dev_id y]) = true
   ∧ ∃ content, read w (product_path d) = Ok content
                ∧ product y = strip content).
Proof.
  unfold device_result.
  destruct (read w (manufacturer_path d)) as [m|e].
  - case_bool_decide as Hm; [|intros [= <-]; by left].
    destruct (read w (product_path d)) as [c|?]; [|done].
    destruct (listdir w (device_path d)) as [l|?]; [|done].
    intros [= <-] [Hy|Hy]%elem_of_app; [by left|right].
    apply list_elem_of_fmap in Hy as (s & -> & Hs).
    apply list_elem_of_In, filter_In in Hs as [_ [Hd Hc]%andb_true_iff].
    cbn [dev_id product]. split; [done|]. split; [done|]. by exists c.
  - destruct (is_OSError e); [intros [= <-]; by left | done].
Qed.

Lemma scan_result_handle (w : world) (entries : list string)
    (yubikeys ys : list YubiKey) (y : YubiKey) :
  scan_result w entries yubikeys = Ok ys → y ∈ ys →
  y ∈ yubikeys ∨
  (issubset (dev_id y) "0123456789-:." = true
   ∧ ∃ d, d ∈ entries
          ∧ isdir w (os_path_join basepath [d; dev_id y]) = true
          ∧ ∃ content, read w (product_path d) = Ok content
                       ∧ product y = strip content).
Proof.
  revert yubikeys. induction entries as [|d entries IH]; intros yubikeys.
  - intros [= <-]. by left.
  - cbn [scan_result].
    destruct (device_result w d yubikeys) as [ys'|] eqn:Hd; [|done].
    intros Hs Hy. destruct (IH _ Hs Hy) as [Hy'|(Hc & d' & Hd' & H)].
    + destruct (device_result_handle _ _ _ _ _ Hd Hy') as [?|(Hc & Hdir & H)];
        [by left|right].
      split; [done|]. exists d. split; [left|done].
    + right. split; [done|]. exists d'. split; [by right|done].
Qed.

(** X11: every handle [get_yubikeys] returns is well formed.  Its
    identifier has only characters of [0123456789-:.] and names a
    directory below an entry of the device tree.  Its product comes from
    the product file of that entry: the file is a text which, with the
    line endings translated to a line feed, is the product between two
    runs of whitespace characters, and the product neither starts nor
    ends with whitespace. *)
Theorem X11_handles_well_formed (w : world) (debug : bool)
    (entries : list string) (yubikeys : list YubiKey) (y : YubiKey) :
  listdir w basepath = Ok entries →
  (get_yubikeys debug w).1 = Ok yubikeys →
  y ∈ yubikeys →
  issubset (dev_id y) "0123456789-:." = true
  ∧ ∃ d, d ∈ entries
         ∧ isdir w (os_path_join basepath [d; dev_id y]) = true
         ∧ ∃ content a b,
             lookup_node w (product_path d) = Ok (File content)
             ∧ universal_newlines content = a +:+ product y +:+ b
             ∧ (∀ c, str_in c a = true → isspace c = true)
             ∧ (∀ c, str_in c b = true → isspace c = true)
             ∧ (∀ c r, product y = String c r → isspace c = false)
             ∧ (∀ r c, product y = r +:+ String c EmptyString →
                       isspace c = false).
Proof.
  intros Hl. rewrite (get_yubikeys_result _ _ _ Hl). intros Hs Hy.
  destruct (scan_result_handle _ _ _ _ _ Hs Hy)
    as [H|(Hc & d & Hd & Hdir & text & Hread & Hprod)];
    [by apply elem_of_nil in H|].
  split; [done|]. exists d. split; [done|]. split; [done|].
  apply read_ok in Hread as (content & Hnode & <-).
  destruct (strip_trimmed (universal_newlines content))
    as ((a & b & Hsplit & Ha & Hb) & Hhead & Hlast).
  rewrite <- Hprod in Hsplit, Hhead, Hlast. by exists content, a, b.
Qed.

Lemma X11_handles_well_formed_witness :
  issubset (dev_id (mkYubiKey "1-2:1.0" ("YubiKey" +:+ LF +:+ "5"))) "0123456789-:." = true
  ∧ ∃ d, d ∈ ["1-2"]
         ∧ isdir padded_product
             (os_path_join basepath [d; dev_id (mkYubiKey "1-2:1.0" ("YubiKey" +:+ LF +:+ "5"))])
           = true
         ∧ ∃ content a b,
             lookup_node padded_product (product_path d) = Ok (File content)
             ∧ universal_newlines content
               = a +:+ product (mkYubiKey "1-2:1.0" ("YubiKey" +:+ LF +:+ "5")) +:+ b
             ∧ (∀ c, str_in c a = true → isspace c = true)
             ∧ (∀ c, str_in c b = true → isspace c = true)
             ∧ (∀ c r, product (mkYubiKey "1-2:1.0" ("YubiKey" +:+ LF +:+ "5")) = String c r →
                       isspace c = false)
             ∧ (∀ r c, product (mkYubiKey "1-2:1.0" ("YubiKey" +:+ LF +:+ "5"))
                       = r +:+ String c EmptyString → isspace c = false).
Proof.
  apply (X11_handles_well_formed padded_product false ["1-2"]
           [mkYubiKey "1-2:1.0" ("YubiKey" +:+ LF +:+ "5")]); [reflexivity..|by left].
Defined.

(** X12: when the root of the device tree cannot be listed,
    [get_yubikeys] raises the exception of the listing at once: no entry
    is looked at, and with the debug flag only the line announcing the
    scan has been printed. *)
Theorem X12_root_listing_failure (w : world) (debug : bool) (e : exn) :
  listdir w basepath = Raise e →
  get_yubikeys debug w =
  (Raise e, if debug
            then set_stdout w (stdout w ++ ["Scanning /sys/bus/usb/devices/"])
            else w).
Proof.
  intros Hl. unfold get_yubikeys, when, os_listdir, observe, print, ret, bind.
  destruct debug.
  - change (listdir (set_stdout w _) basepath) with (listdir w basepath).
    by rewrite Hl.
  - by rewrite Hl.
Qed.

Lemma X12_root_listing_failure_witness :
  get_yubikeys true locked_root =
  (Raise PermissionError,
   set_stdout locked_root
     (stdout locked_root ++ ["Scanning /sys/bus/usb/devices/"])).
Proof. apply (X12_root_listing_failure locked_root true). reflexivity. Defined.

Lemma scan_result_none (w : world) (entries : list string)
    (yubikeys : list YubiKey) :
  (∀ d, d ∈ entries →
        read w (manufacturer_path d) ≠ Ok ("Yubico" +:+ LF)
        ∧ read w (manufacturer_path d) ≠ Raise UnicodeDecodeError) →
  scan_result w entries yubikeys = Ok yubikeys.
Proof.
  induction entries as [|d entries IH]; intros Hno; [done|].
  cbn [scan_result].
  assert (device_result w d yubikeys = Ok yubikeys) as ->.
  { unfold device_result. destruct (Hno d) as [Hne Hnu]; [by left|].
    destruct (read w (manufacturer_path d)) as [m|e] eqn:Hm.
    - rewrite bool_decide_eq_false_2; [done|]. by intros ->.
    - destruct (read_raise _ _ _ Hm) as [He| ->]; [by rewrite He|done]. }
  apply IH. intros d' Hd'. apply Hno. by right.
Qed.

(** X13: on a machine where the manufacturer file of every entry of the
    device tree either cannot be opened or is a text other than the
    vendor's name and a newline, discovery returns the empty list, and
    without the debug flag every command run by root, and [list] run by
    anyone, returns without printing or changing anything. *)
Theorem X13_no_yubikey (w : world) (entries : list string) (cmd : command) :
  listdir w basepath = Ok entries →
  (∀ d, d ∈ entries →
        read w (manufacturer_path d) ≠ Ok ("Yubico" +:+ LF)
        ∧ read w (manufacturer_path d) ≠ Raise UnicodeDecodeError) →
  (∀ debug, (get_yubikeys debug w).1 = Ok [])
  ∧ (cmd = cmd_list ∨ euid w = 0 →
     main {| args_command := cmd; args_debug := false |} w = (Ok tt, w)).
Proof.
  intros Hl Hno.
  assert (∀ debug, (get_yubikeys debug w).1 = Ok []) as Hget.
  { intros debug. rewrite (get_yubikeys_result _ _ _ Hl).
    by apply scan_result_none. }
  split; [done|]. intros Hcmd.
  assert (get_yubikeys false w = (Ok [], w)) as Hrun.
  { specialize (Hget false).
    destruct (get_yubikeys_run false w) as (out & Hrun & Hout).
    rewrite Hrun in Hget |- *. cbn [fst] in Hget.
    by rewrite Hget, (Hout eq_refl), set_stdout_nil. }
  destruct cmd.
  - destruct Hcmd as [?|Heuid]; [done|].
    by rewrite (main_as_root _ _ Heuid), (bind_ok _ _ _ _ _ Hrun).
  - destruct Hcmd as [?|Heuid]; [done|].
    by rewrite (main_as_root _ _ Heuid), (bind_ok _ _ _ _ _ Hrun).
  - by rewrite main_list, (bind_ok _ _ _ _ _ Hrun).
Qed.

Lemma X13_no_yubikey_witness :
  (∀ debug, (get_yubikeys debug no_key).1 = Ok [])
  ∧ (cmd_on = cmd_list ∨ euid no_key = 0 →
     main {| args_command := cmd_on; args_debug := false |} no_key
     = (Ok tt, no_key)).
Proof.
  apply (X13_no_yubikey no_key ["usb1"; "1-3"] cmd_on); [reflexivity|].
  intros d Hd. repeat (apply elem_of_cons in Hd as [->|Hd]);
    [by vm_compute..|by apply elem_of_nil in Hd].
Defined.

(** X22: a manufacturer file whose bytes are no text is not skipped: the
    [UnicodeDecodeError] of reading it is no [OSError], the clause of
    line 65 does not catch it, and [get_yubikeys] ends with it when the
    entries before were scanned without an exception. *)
Theorem X22_undecodable_manufacturer (w : world) (debug : bool)
    (pre post : list string) (d : string) (yubikeys : list YubiKey) :
  listdir w basepath = Ok (pre ++ d :: post) →
  (for_in pre (device_body debug) [] w).1 = Ok yubikeys →
  lookup_node w (manufacturer_path d) = Ok Binary →
  (get_yubikeys debug w).1 = Raise UnicodeDecodeError.
Proof.
  intros Hl Hpre Hm.
  rewrite (get_yubikeys_result _ _ _ Hl), scan_result_app.
  rewrite for_in_devices_result in Hpre. rewrite Hpre. cbn [scan_result].
  unfold device_result, read. by rewrite Hm.
Qed.

Lemma X22_undecodable_manufacturer_witness :
  (get_yubikeys true binary_manufacturer).1 = Raise UnicodeDecodeError.
Proof.
  apply (X22_undecodable_manufacturer binary_manufacturer true [] [] "1-2" []);
    reflexivity.
Defined.

Lemma scan_result_acc (w : world) (entries : list string)
    (yubikeys : list YubiKey) :
  scan_result w entries yubikeys =
  match scan_result w entries [] with
  | Ok ys => Ok (yubikeys ++ ys)
  | Raise e => Raise e
  end.
Proof.
  revert yubikeys. induction entries as [|d entries IH]; intros yubikeys.
  - cbn. by rewrite app_nil_r.
  - cbn [scan_result].
    assert (device_result w d yubikeys =
            match device_result w d [] with
            | Ok ys => Ok (yubikeys ++ ys)
            | Raise e => Raise e
            end) as ->.
    { unfold device_result. repeat case_match; by rewrite ?app_nil_r. }
    destruct (device_result w d []) as [ys1|e]; [|done].
    rewrite (IH (yubikeys ++ ys1)), (IH ys1).
    destruct (scan_result w entries []); [|done]. by rewrite app_assoc.
Qed.

(** X14: the handles come in the order of the listing: the scan of a
    listing in two parts returns the handles of the first part followed
    by those of the second, each as the scan of that part alone returns
    them. *)
Theorem X14_listing_order (w : world) (debug : bool) (pre post : list string)
    (ys1 ys2 : list YubiKey) :
  listdir w basepath = Ok (pre ++ post) →
  (for_in pre (device_body debug) [] w).1 = Ok ys1 →
  (for_in post (device_body debug) [] w).1 = Ok ys2 →
  (get_yubikeys debug w).1 = Ok (ys1 ++ ys2).
Proof.
  intros Hl. rewrite (get_yubikeys_result _ _ _ Hl), !for_in_devices_result.
  intros H1 H2. by rewrite scan_result_app, H1, scan_result_acc, H2.
Qed.

Lemma X14_listing_order_witness :
  (get_yubikeys false unreadable_device).1
  = Ok ([] ++ [mkYubiKey "1-2:1.0" "YubiKey 5"]).
Proof.
  apply (X14_listing_order unreadable_device false ["1-1"] ["1-2"]);
    reflexivity.
Defined.

(** ** Strings: paths, rows and representations *)

Lemma endswith_sep_app (a d : string) :
  d ≠ EmptyString → endswith_sep (a +:+ d) = endswith_sep d.
Proof.
  intros Hd. induction a as [|c a IH]; [done|].
  rewrite string_app_cons. cbn [endswith_sep].
  destruct (a +:+ d) as [|c' r] eqn:Hr; [|done].
  destruct a; [done|discriminate].
Qed.

Lemma endswith_sep_str_in (d : string) :
  str_in "/" d = false → endswith_sep d = false.
Proof.
  induction d as [|c d IH]; [done|]. cbn [str_in endswith_sep].
  intros [Hc Hd]%orb_false_elim. destruct d as [|c' d]; [|by apply IH].
  apply bool_decide_eq_false in Hc. by apply bool_decide_eq_false_2.
Qed.

Lemma issubset_no_sep (s : string) :
  issubset s "0123456789-:." = true → str_in "/" s = false.
Proof.
  induction s as [|c s IH]; [done|]. cbn [issubset str_in].
  intros [Hc Hs]%andb_true_iff. rewrite (IH Hs), orb_false_r.
  apply bool_decide_eq_false_2. by intros <-.
Qed.

(** X15: for every handle [get_yubikeys] returns, the entry [is_active]
    looks for lies in the directory of the driver: it is the driver's
    directory, a separator and the identifier. *)
Theorem X15_discovered_entry_in_driver_directory (w : world) (debug : bool)
    (yubikeys : list YubiKey) (y : YubiKey) :
  (get_yubikeys debug w).1 = Ok yubikeys →
  y ∈ yubikeys →
  os_path_join "/sys/bus/usb/drivers/usbhid" [dev_id y]
  = "/sys/bus/usb/drivers/usbhid/" +:+ dev_id y.
Proof.
  intros Hget Hy.
  destruct (get_yubikeys_run debug w) as (out & Hrun & _).
  rewrite Hrun in Hget. cbn [fst] in Hget.
  destruct (listdir w basepath) as [entries|]; [|done].
  destruct (scan_result_handle _ _ _ _ _ Hget Hy) as [H|[Hc _]];
    [by apply elem_of_nil in H|].
  apply issubset_no_sep, startswith_sep_str_in, join_binding in Hc.
  exact Hc.
Qed.

Lemma X15_discovered_entry_in_driver_directory_witness :
  os_path_join "/sys/bus/usb/drivers/usbhid"
    [dev_id (mkYubiKey "1-2:1.0" "YubiKey 5")]
  = "/sys/bus/usb/drivers/usbhid/" +:+ dev_id (mkYubiKey "1-2:1.0" "YubiKey 5").
Proof.
  apply (X15_discovered_entry_in_driver_directory (one_key 0) false
           [mkYubiKey "1-2:1.0" "YubiKey 5"]); [reflexivity|by left].
Defined.

Lemma repr_char_plain (c : ascii) :
  str_in c "0123456789-:." = true →
  repr_char "'" c = String c EmptyString.
Proof.
  cbn [str_in]. intros H.
  repeat (apply orb_true_iff in H as [H|H];
          [apply bool_decide_eq_true in H as ->; reflexivity|]).
  done.
Qed.

Lemma repr_body_plain (s : string) :
  issubset s "0123456789-:." = true → repr_body "'" s = s.
Proof.
  induction s as [|c s IH]; [done|]. cbn [issubset repr_body].
  intros [Hc Hs]%andb_true_iff. by rewrite (repr_char_plain _ Hc), (IH Hs).
Qed.

Lemma issubset_no_quote (s : string) :
  issubset s "0123456789-:." = true → str_in "'" s = false.
Proof.
  induction s as [|c s IH]; [done|]. cbn [issubset str_in].
  intros [Hc Hs]%andb_true_iff. rewrite (IH Hs), orb_false_r.
  apply bool_decide_eq_false_2. by intros <-.
Qed.

(** X16: the representation of a handle shows an identifier of the
    characters [0123456789-:.] as it is, between single quotes: nothing
    in it is escaped. *)
Theorem X16_repr_identifier_verbatim (y : YubiKey) :
  issubset (dev_id y) "0123456789-:." = true →
  repr_str (dev_id y) = "'" +:+ dev_id y +:+ "'"
  ∧ YubiKey_repr y =
    "<YubiKey (dev_id=" +:+ ("'" +:+ dev_id y +:+ "'") +:+ ", product="
      +:+ repr_str (product y) +:+ ")>".
Proof.
  intros Hc.
  assert (repr_str (dev_id y) = "'" +:+ dev_id y +:+ "'") as Hr.
  { unfold repr_str. rewrite (issubset_no_quote _ Hc). cbn [andb]. cbv zeta.
    by rewrite (repr_body_plain _ Hc). }
  split; [done|]. unfold YubiKey_repr. by rewrite Hr.
Qed.

Lemma X16_repr_identifier_verbatim_witness :
  repr_str (dev_id (mkYubiKey "1-2:1.0" "YubiKey 5"))
  = "'" +:+ dev_id (mkYubiKey "1-2:1.0" "YubiKey 5") +:+ "'"
  ∧ YubiKey_repr (mkYubiKey "1-2:1.0" "YubiKey 5") =
    "<YubiKey (dev_id="
      +:+ ("'" +:+ dev_id (mkYubiKey "1-2:1.0" "YubiKey 5") +:+ "'")
      +:+ ", product=" +:+ repr_str (product (mkYubiKey "1-2:1.0" "YubiKey 5"))
      +:+ ")>".
Proof.
  apply (X16_repr_identifier_verbatim (mkYubiKey "1-2:1.0" "YubiKey 5")).
  reflexivity.
Defined.

Lemma spaces_length (n : nat) : String.length (spaces n) = n.
Proof. induction n as [|n IH]; [done|]. cbn. by rewrite IH. Qed.

Lemma string_prefix_app (s t : string) : String.prefix s (s +:+ t) = true.
Proof.
  induction s as [|c s IH]; [by destruct t|].
  rewrite string_app_cons. cbn [String.prefix].
  by destruct (ascii_dec c c).
Qed.

(** X17: the left-justified field of a row never cuts the identifier: the
    field starts with the whole identifier and its length is the larger
    of the width and the length of the identifier. *)
Theorem X17_ljust_pads_never_cuts (s : string) (width : nat) :
  String.prefix s (ljust s width) = true
  ∧ String.length (ljust s width) = Nat.max (String.length s) width.
Proof.
  unfold ljust. split; [apply string_prefix_app|].
  rewrite string_length_app, spaces_length. lia.
Qed.

(** X18: for an entry of the device tree whose name is a file name, the
    paths [get_yubikeys] builds lie below the root of the device tree:
    the root followed by the name, and by a separator and the name of the
    attribute file or of the sub-entry. *)
Theorem X18_paths_of_entry (d : string) :
  is_filename d = true →
  os_path_join basepath [d] = basepath +:+ d
  ∧ os_path_join basepath [d; "manufacturer"] = basepath +:+ d +:+ "/manufacturer"
  ∧ os_path_join basepath [d; "product"] = basepath +:+ d +:+ "/product"
  ∧ ∀ subdev, startswith_sep subdev = false →
              os_path_join basepath [d; subdev] = basepath +:+ d +:+ "/" +:+ subdev.
Proof.
  intros [Hne%negb_true_iff%bool_decide_eq_false Hsep%negb_true_iff]%andb_true_iff.
  pose proof (startswith_sep_str_in _ Hsep) as Hstart.
  assert (∀ b, startswith_sep b = false →
               os_path_join basepath [d; b] = basepath +:+ d +:+ "/" +:+ b) as Hjoin.
  { intros b Hb. cbn [os_path_join]. rewrite Hstart, Hb.
    change (bool_decide (basepath = EmptyString) || endswith_sep basepath)
      with true. cbn match.
    rewrite (endswith_sep_app basepath d Hne), (endswith_sep_str_in _ Hsep).
    rewrite orb_false_r, bool_decide_eq_false_2 by done.
    by rewrite string_app_assoc. }
  split; [cbn [os_path_join]; by rewrite Hstart|].
  split; [by rewrite Hjoin|]. split; [by rewrite Hjoin|]. exact Hjoin.
Qed.

Lemma X18_paths_of_entry_witness :
  os_path_join basepath ["1-2"] = basepath +:+ "1-2"
  ∧ os_path_join basepath ["1-2"; "manufacturer"]
    = basepath +:+ "1-2" +:+ "/manufacturer"
  ∧ os_path_join basepath ["1-2"; "product"] = basepath +:+ "1-2" +:+ "/product"
  ∧ ∀ subdev, startswith_sep subdev = false →
              os_path_join basepath ["1-2"; subdev]
              = basepath +:+ "1-2" +:+ "/" +:+ subdev.
Proof. apply (X18_paths_of_entry "1-2"). reflexivity. Defined.

(** ** Reports and writes *)

Lemma for_in_on_report (ys : list YubiKey) (w w' : world) :
  for_in ys on_body tt w = (Ok tt, w') →
  ∃ bs : list bool,
    length bs = length ys
    ∧ stdout w' =
      stdout w ++
      map (λ p : YubiKey * bool,
             (if p.2 then "Yubikey activated successfully: "
              else "Yubikey already active: ") +:+ YubiKey_repr p.1)
        (zip ys bs)
    ∧ written w' =
      written w ++
      map (λ p : YubiKey * bool, (usbhid_bind, dev_id p.1))
        (List.filter snd (zip ys bs)).
Proof.
  revert w. induction ys as [|z ys IH]; intros w.
  - intros [= <-]. exists []. by rewrite !app_nil_r.
  - cbn [for_in]. unfold bind. rewrite on_body_run.
    destruct (activate_cases z w) as [[e He]|[[He _]|[He _]]]; rewrite He;
      [done|..]; intros (bs & Hlen & Hout & Hwr)%IH.
    + exists (false :: bs). cbn [length zip zip_with map List.filter snd fst].
      split; [by rewrite Hlen|]. rewrite Hout, Hwr.
      cbn [stdout written set_stdout]. by rewrite <- app_assoc.
    + exists (true :: bs). cbn [length zip zip_with map List.filter snd fst].
      split; [by rewrite Hlen|]. rewrite Hout, Hwr.
      cbn [stdout written set_stdout set_nodes]. by rewrite <- !app_assoc.
Qed.

Lemma for_in_off_report (ys : list YubiKey) (w w' : world) :
  for_in ys off_body tt w = (Ok tt, w') →
  ∃ bs : list bool,
    length bs = length ys
    ∧ stdout w' =
      stdout w ++
      map (λ p : YubiKey * bool,
             (if p.2 then "Yubikey deactivated successfully: "
              else "Yubikey already inactive: ") +:+ YubiKey_repr p.1)
        (zip ys bs)
    ∧ written w' =
      written w ++
      map (λ p : YubiKey * bool, (usbhid_unbind, dev_id p.1))
        (List.filter snd (zip ys bs)).
Proof.
  revert w. induction ys as [|z ys IH]; intros w.
  - intros [= <-]. exists []. by rewrite !app_nil_r.
  - cbn [for_in]. unfold bind. rewrite off_body_run.
    destruct (deactivate_cases z w) as [[e He]|[[He _]|[He _]]]; rewrite He;
      [done|..]; intros (bs & Hlen & Hout & Hwr)%IH.
    + exists (false :: bs). cbn [length zip zip_with map List.filter snd fst].
      split; [by rewrite Hlen|]. rewrite Hout, Hwr.
      cbn [stdout written set_stdout]. by rewrite <- app_assoc.
    + exists (true :: bs). cbn [length zip zip_with map List.filter snd fst].
      split; [by rewrite Hlen|]. rewrite Hout, Hwr.
      cbn [stdout written set_stdout set_nodes]. by rewrite <- !app_assoc.
Qed.

(** X19: when [on], or [off], runs to its end, it has printed exactly one
    line per discovered device, in the order of discovery, and its report
    agrees with what it did: the devices reported as activated, or
    deactivated, are exactly those whose identifier it wrote to the
    control file, and the others are reported as already in that state. *)
Theorem X19_report_agrees_with_writes (debug : bool) (w w1 w' : world)
    (ys : list YubiKey) :
  get_yubikeys debug w = (Ok ys, w1) →
  (main {| args_command := cmd_on; args_debug := debug |} w = (Ok tt, w') →
   ∃ bs : list bool,
     length bs = length ys
     ∧ stdout w' =
       stdout w1 ++
       map (λ p : YubiKey * bool,
              (if p.2 then "Yubikey activated successfully: "
               else "Yubikey already active: ") +:+ YubiKey_repr p.1)
         (zip ys bs)
     ∧ written w' =
       written w ++
       map (λ p : YubiKey * bool, (usbhid_bind, dev_id p.1))
         (List.filter snd (zip ys bs)))
  ∧ (main {| args_command := cmd_off; args_debug := debug |} w = (Ok tt, w') →
     ∃ bs : list bool,
       length bs = length ys
       ∧ stdout w' =
         stdout w1 ++
         map (λ p : YubiKey * bool,
                (if p.2 then "Yubikey deactivated successfully: "
                 else "Yubikey already inactive: ") +:+ YubiKey_repr p.1)
           (zip ys bs)
       ∧ written w' =
         written w ++
         map (λ p : YubiKey * bool, (usbhid_unbind, dev_id p.1))
           (List.filter snd (zip ys bs))).
Proof.
  intros Hget.
  assert (written w1 = written w) as Hw.
  { destruct (get_yubikeys_run debug w) as (out & Hrun & _).
    rewrite Hrun in Hget. by injection Hget as _ <-. }
  split; intros Hmain.
  - destruct (decide (euid w = 0)) as [Heuid|Heuid];
      [|by match type of Hmain with
           | main ?a w = _ =>
               destruct (main_not_root_raise a w ltac:(done) Heuid)
                 as (e & w0 & He & _); rewrite He in Hmain
           end].
    rewrite (main_as_root _ _ Heuid), (bind_ok _ _ _ _ _ Hget) in Hmain.
    cbn [args_command] in Hmain. rewrite <- Hw. by apply for_in_on_report.
  - destruct (decide (euid w = 0)) as [Heuid|Heuid];
      [|by match type of Hmain with
           | main ?a w = _ =>
               destruct (main_not_root_raise a w ltac:(done) Heuid)
                 as (e & w0 & He & _); rewrite He in Hmain
           end].
    rewrite (main_as_root _ _ Heuid), (bind_ok _ _ _ _ _ Hget) in Hmain.
    cbn [args_command] in Hmain. rewrite <- Hw. by apply for_in_off_report.
Qed.

Lemma X19_report_agrees_with_writes_witness :
  ∃ bs : list bool,
    length bs = length [mkYubiKey "1-2:1.0" "YubiKey 5"]
    ∧ stdout (main {| args_command := cmd_on; args_debug := false |}
                (one_key 0)).2 =
      stdout (one_key 0) ++
      map (λ p : YubiKey * bool,
             (if p.2 then "Yubikey activated successfully: "
              else "Yubikey already active: ") +:+ YubiKey_repr p.1)
        (zip [mkYubiKey "1-2:1.0" "YubiKey 5"] bs)
    ∧ written (main {| args_command := cmd_on; args_debug := false |}
                 (one_key 0)).2 =
      written (one_key 0) ++
      map (λ p : YubiKey * bool, (usbhid_bind, dev_id p.1))
        (List.filter snd (zip [mkYubiKey "1-2:1.0" "YubiKey 5"] bs)).
Proof.
  destruct (X19_report_agrees_with_writes false (one_key 0) (one_key 0)
              (main {| args_command := cmd_on; args_debug := false |}
                 (one_key 0)).2
              [mkYubiKey "1-2:1.0" "YubiKey 5"]) as [H _]; [reflexivity|].
  apply H. reflexivity.
Defined.

(** X20: discovery can be repeated: after a run of [get_yubikeys], with
    or without the debug flag, another run returns what the first one
    returned. *)
Theorem X20_discovery_repeatable (debug debug' : bool) (w : world) :
  (get_yubikeys debug' (get_yubikeys debug w).2).1 = (get_yubikeys debug w).1.
Proof.
  destruct (get_yubikeys_run debug w) as (out & -> & _). cbn [fst snd].
  destruct (get_yubikeys_run debug' (set_stdout w (stdout w ++ out)))
    as (out' & -> & _). cbn [fst].
  change (listdir (set_stdout w (stdout w ++ out)) basepath)
    with (listdir w basepath).
  destruct (listdir w basepath); [apply scan_result_stdout|done].
Qed.
